(** * Investor chatbot backend: the orchestration core

    A shallow embedding of [app/services/gemini_service.py] and
    [app/services/process_chat_service.py], and the properties that the
    specification states about them.

    Python values that flow through the pipeline are dynamically typed, so
    they are modelled by one datatype [pyval]; an operation that raises in
    Python returns [Raise] here.  The text-generation backend, the token
    counter of the backend, the HTTP provider and the [json] module are
    outside the repository: they are the fields of the record [env]. *)

From Stdlib Require Import ZArith List String Ascii Bool Lia QArith.
Import ListNotations.
Open Scope string_scope.
Open Scope Z_scope.
Set Warnings "-register-all".

(** ** Python values, exceptions and the few built-ins used by the code *)

Module Py.

(** A float is observed by the code only through its truth value. *)
Record pyfloat := mkFloat { f_nonzero : bool; f_repr : string }.

(** The values [json.loads] can build ([None] is JSON's [null]). *)
Inductive pyval :=
| PNone
| PBool (b : bool)
| PInt (z : Z)
| PFloat (f : pyfloat)
| PStr (s : string)
| PList (l : list pyval)
| PDict (d : list (string * pyval)).

Inductive exn :=
| AttributeError
| TypeError
| KeyError
| IndexError
| JSONDecodeError
| RequestError
| OtherError (name : string).

(** [isinstance(e, httpx.RequestError)] *)
Definition is_request_error (e : exn) : bool :=
  match e with RequestError => true | _ => false end.

(** [isinstance(e, (json.JSONDecodeError, TypeError))] *)
Definition is_decode_or_type_error (e : exn) : bool :=
  match e with JSONDecodeError | TypeError => true | _ => false end.

Inductive result (A : Type) :=
| Ok (a : A)
| Raise (e : exn).
Arguments Ok {A} a.
Arguments Raise {A} e.

Definition rbind {A B} (m : result A) (k : A -> result B) : result B :=
  match m with Ok a => k a | Raise e => Raise e end.

(** [try: m  except Exception: h] *)
Definition try_except {A} (m : result A) (h : exn -> result A) : result A :=
  match m with Ok a => Ok a | Raise e => h e end.

(** [try: m  except <classes>: h]; other exceptions keep propagating. *)
Definition try_except_when {A} (catch : exn -> bool) (m : result A)
    (h : exn -> result A) : result A :=
  match m with
  | Ok a => Ok a
  | Raise e => if catch e then h e else Raise e
  end.

(** *** Strings.  A character is a code point below 256. *)

(** [str.isspace] on one character of that range. *)
Definition is_space (c : ascii) : bool :=
  let n := nat_of_ascii c in
  (((9 <=? n) && (n <=? 13)) || ((28 <=? n) && (n <=? 32))
   || (n =? 133) || (n =? 160))%nat.

Fixpoint lstrip (s : string) : string :=
  match s with
  | EmptyString => EmptyString
  | String c r => if is_space c then lstrip r else s
  end.

Definition rev_string (s : string) : string :=
  string_of_list_ascii (rev (list_ascii_of_string s)).

Definition rstrip (s : string) : string := rev_string (lstrip (rev_string s)).

(** [s.strip()] *)
Definition strip (s : string) : string := rstrip (lstrip s).

(** [s.startswith(p)] *)
Definition startswith (s p : string) : bool := String.prefix p s.

(** [s.endswith(p)] *)
Definition endswith (s p : string) : bool :=
  String.prefix (rev_string p) (rev_string s).

(** [s.removeprefix(p)] *)
Definition removeprefix (s p : string) : string :=
  if startswith s p
  then String.substring (String.length p) (String.length s - String.length p) s
  else s.

(** [s.removesuffix(p)] *)
Definition removesuffix (s p : string) : string :=
  if negb (String.eqb p "") && endswith s p
  then String.substring 0 (String.length s - String.length p) s
  else s.

(** [p in s] for two strings *)
Fixpoint str_contains (p s : string) : bool :=
  String.prefix p s ||
  match s with
  | EmptyString => false
  | String _ r => str_contains p r
  end.

Definition upper_char (c : ascii) : ascii :=
  let n := nat_of_ascii c in
  if ((97 <=? n) && (n <=? 122))%nat then ascii_of_nat (n - 32) else c.

(** [s.upper()], used only to compare with an ASCII word; on code points
    below 256 that comparison depends on the letters a-z alone. *)
Fixpoint upper (s : string) : string :=
  match s with
  | EmptyString => EmptyString
  | String c r => String (upper_char c) (upper r)
  end.

Definition nl : string := String (ascii_of_nat 10) EmptyString.

(** [sep.join(l)] *)
Fixpoint join (sep : string) (l : list string) : string :=
  match l with
  | [] => ""
  | [x] => x
  | x :: r => x ++ sep ++ join sep r
  end.

(** *** Dynamic operations *)

(** [bool(v)] *)
Definition truthy (v : pyval) : bool :=
  match v with
  | PNone => false
  | PBool b => b
  | PInt z => negb (z =? 0)
  | PFloat f => f_nonzero f
  | PStr s => negb (String.eqb s "")
  | PList l => match l with [] => false | _ => true end
  | PDict d => match d with [] => false | _ => true end
  end.

(** [v == s] for a string literal [s] *)
Definition eq_str (v : pyval) (s : string) : bool :=
  match v with PStr t => String.eqb t s | _ => false end.

Fixpoint dict_lookup (k : string) (d : list (string * pyval)) : option pyval :=
  match d with
  | [] => None
  | (k', v) :: r => if String.eqb k' k then Some v else dict_lookup k r
  end.

Definition dict_has (k : string) (d : list (string * pyval)) : bool :=
  match dict_lookup k d with Some _ => true | None => false end.

(** [d[k] = v] on a dict kept in insertion order *)
Fixpoint dict_set (k : string) (v : pyval) (d : list (string * pyval))
  : list (string * pyval) :=
  match d with
  | [] => [(k, v)]
  | (k', v') :: r =>
      if String.eqb k' k then (k', v) :: r else (k', v') :: dict_set k v r
  end.

Definition dict_get (k : string) (d : list (string * pyval)) (dflt : pyval)
  : pyval :=
  match dict_lookup k d with Some x => x | None => dflt end.

(** [v.get(k, dflt)]: only a dict has the method. *)
Definition get (v : pyval) (k : string) (dflt : pyval) : result pyval :=
  match v with
  | PDict d => Ok (dict_get k d dflt)
  | _ => Raise AttributeError
  end.

(** [k in v] for a string literal [k] *)
Definition contains (k : string) (v : pyval) : result bool :=
  match v with
  | PDict d => Ok (dict_has k d)
  | PList l => Ok (existsb (fun x => eq_str x k) l)
  | PStr s => Ok (str_contains k s)
  | _ => Raise TypeError
  end.

(** [v[0]]; the keys of a decoded JSON object are strings, never [0]. *)
Definition index0 (v : pyval) : result pyval :=
  match v with
  | PList (x :: _) => Ok x
  | PList [] => Raise IndexError
  | PStr (String c _) => Ok (PStr (String c EmptyString))
  | PStr EmptyString => Raise IndexError
  | PDict _ => Raise KeyError
  | _ => Raise TypeError
  end.

Definition chars (s : string) : list pyval :=
  map (fun c => PStr (String c EmptyString)) (list_ascii_of_string s).

(** [for item in v]: the items the loop visits. *)
Definition iterate (v : pyval) : result (list pyval) :=
  match v with
  | PList l => Ok l
  | PStr s => Ok (chars s)
  | PDict d => Ok (map (fun kv => PStr (fst kv)) d)
  | _ => Raise TypeError
  end.

(** [for item in v[:n]]; slicing a dict raises ([TypeError] or [KeyError],
    depending on the version of Python). *)
Definition iterate_slice (n : nat) (v : pyval) : result (list pyval) :=
  match v with
  | PList l => Ok (firstn n l)
  | PStr s => Ok (firstn n (chars s))
  | PDict _ => Raise KeyError
  | _ => Raise TypeError
  end.

(** A list comprehension whose body may raise. *)
Fixpoint mapM {A B} (f : A -> result B) (l : list A) : result (list B) :=
  match l with
  | [] => Ok []
  | x :: r => rbind (f x) (fun y => rbind (mapM f r) (fun ys => Ok (y :: ys)))
  end.

End Py.
Import Py.

Notation "x <- m ;; k" := (rbind m (fun x => k))
  (at level 61, m at next level, right associativity).

(** ** Objects returned by the generative SDK

    [GeminiService] probes the reply of the SDK by attribute name, with
    [getattr(o, name, None)].  A reply is therefore modelled as a table of
    attributes; reading one may itself raise (the SDK's [text] accessor
    does when the reply holds no valid part). *)

Inductive dyn :=
| DNone
| DInt (z : Z)
| DStr (s : string)
| DOther (truth : bool)
| DSeq (items : list dyn)
| DObj (attrs : list (string * access))
with access :=
| Has (v : dyn)
| Fails (e : exn).

Definition dyn_truthy (v : dyn) : bool :=
  match v with
  | DNone => false
  | DInt z => negb (z =? 0)
  | DStr s => negb (String.eqb s "")
  | DOther b => b
  | DSeq l => match l with [] => false | _ => true end
  | DObj _ => true
  end.

Fixpoint attr_lookup (name : string) (attrs : list (string * access))
  : option access :=
  match attrs with
  | [] => None
  | (n, a) :: r => if String.eqb n name then Some a else attr_lookup name r
  end.

(** [getattr(o, name, None)]: the default replaces a missing attribute and
    an [AttributeError] of the accessor, nothing else. *)
Definition getattr (o : dyn) (name : string) : result dyn :=
  match o with
  | DObj attrs =>
      match attr_lookup name attrs with
      | None => Ok DNone
      | Some (Has v) => Ok v
      | Some (Fails AttributeError) => Ok DNone
      | Some (Fails e) => Raise e
      end
  | _ => Ok DNone
  end.

(** [getattr(o, a, None) or getattr(o, b, None)] *)
Definition getattr_or (o : dyn) (a b : string) : result dyn :=
  x <- getattr o a ;;
  if dyn_truthy x then Ok x else getattr o b.

(** [v[0]] on a value already known to be truthy *)
Definition dyn_index0 (v : dyn) : result dyn :=
  match v with
  | DSeq (x :: _) => Ok x
  | DSeq [] => Raise IndexError
  | DStr (String c _) => Ok (DStr (String c EmptyString))
  | DStr EmptyString => Raise IndexError
  | _ => Raise TypeError
  end.

(** [for p in v] *)
Definition dyn_iterate (v : dyn) : result (list dyn) :=
  match v with
  | DSeq l => Ok l
  | DStr s => Ok (map (fun c => DStr (String c EmptyString))
                      (list_ascii_of_string s))
  | _ => Raise TypeError
  end.

Record message := mkMessage { role : string; content : string }.

Record gen_request := mkGenRequest {
  system_instruction : option string;
  prompt : string;
  temperature : Q;
  max_output_tokens : Z
}.

(** ** gemini_service.py *)

Definition NOT_CONFIGURED_MSG : string :=
  "Gemini API is not configured. Set GEMINI_API_KEY and restart.".
(** The typographic apostrophe of the source (U+2019) is held as the three
    bytes of its UTF-8 encoding. *)
Definition SAFETY_MSG : string :=
  "Sorry, I can’t respond to that request due to safety policies. Please try rephrasing.".
Definition EMPTY_MSG : string :=
  "I'm sorry, I didn't understand that. Can you rephrase?".
Definition FAILED_MSG : string :=
  "Sorry, something went wrong. Please contact the administrator.".

Record GeminiService := mkGemini { client_ready : bool }.

(** [_init_client], called by the constructor. *)
Definition _init_client (genai_installed : bool) (api_key : option string)
    (configure : result unit) : GeminiService :=
  if negb genai_installed then mkGemini false
  else match api_key with
       | None => mkGemini false
       | Some k =>
           if String.eqb k "" then mkGemini false
           else match configure with
                | Ok _ => mkGemini true
                | Raise _ => mkGemini false
                end
       end.

Section Gemini.

(** The SDK: [GenerativeModel(...).generate_content], [count_tokens], and
    Python's [int] on whatever the SDK reports as a total. *)
Variable genai_installed : bool.
Variable generate_content : gen_request -> result dyn.
Variable count_tokens_api : string -> result dyn.
Variable py_int : dyn -> result Z.

Definition count_tokens (self : GeminiService) (text : string) : Z :=
  if negb (client_ready self) || negb genai_installed then -1
  else
    match
      try_except
        (res <- count_tokens_api text ;;
         total <- getattr_or res "total_tokens" "totalTokens" ;;
         match total with
         | DNone => Ok (-1)
         | _ => py_int total
         end)
        (fun _ => Ok (-1))
    with
    | Ok n => n
    | Raise _ => -1
    end.

(** The text of the parts of the first candidate, lines 100-106. *)
Fixpoint parts_text (ps : list dyn) : result (list string) :=
  match ps with
  | [] => Ok []
  | p :: r =>
      t <- getattr p "text" ;;
      out <- parts_text r ;;
      match t with
      | DStr s => if String.eqb s "" then Ok out else Ok (s :: out)
      | _ => Ok out
      end
  end.

(** Lines 80-88: [Some text] when the [text] accessor gives a string that
    is not blank; an exception of the accessor is swallowed. *)
Definition probe_text (resp : dyn) : option string :=
  match getattr resp "text" with
  | Ok (DStr s) => if String.eqb (strip s) "" then None else Some s
  | _ => None
  end.

(** Lines 97-109: the text carried by the parts of a candidate. *)
Definition candidate_text (first : dyn) : result (option string) :=
  content <- getattr first "content" ;;
  parts <- getattr content "parts" ;;
  if dyn_truthy parts then
    ps <- dyn_iterate parts ;;
    out <- parts_text ps ;;
    let text := strip (String.concat "" out) in
    if String.eqb text "" then Ok None else Ok (Some text)
  else Ok None.

(** Lines 90-116: [Some s] when the candidates branch returns [s]. *)
Definition probe_candidates (resp : dyn) : result (option string) :=
  cand <- getattr resp "candidates" ;;
  if dyn_truthy cand then
    try_except
      (first <- dyn_index0 cand ;;
       finish_reason <- getattr_or first "finish_reason" "finishReason" ;;
       found <- candidate_text first ;;
       match found with
       | Some text => Ok (Some text)
       | None =>
           safety <- getattr_or first "safety_ratings" "safetyRatings" ;;
           if dyn_truthy safety
              || match finish_reason with
                 | DStr r => String.eqb (upper r) "SAFETY"
                 | _ => false
                 end
           then Ok (Some SAFETY_MSG)
           else Ok None
       end)
      (fun _ => Ok None)
  else Ok None.

(** Lines 118-124. *)
Definition probe_prompt_feedback (resp : dyn) : option string :=
  match
    (pf <- getattr_or resp "prompt_feedback" "promptFeedback" ;;
     if dyn_truthy pf then
       br <- getattr pf "block_reason" ;;
       if dyn_truthy br then Ok (Some SAFETY_MSG) else Ok None
     else Ok None)
  with
  | Ok r => r
  | Raise _ => None
  end.

Definition system_parts (messages : list message) : list string :=
  map content (filter (fun m => String.eqb (role m) "system") messages).

Definition user_messages (messages : list message) : list string :=
  map content (filter (fun m => String.eqb (role m) "user") messages).

Definition build_request (messages : list message) (temp : Q) (max_tokens : Z)
  : gen_request :=
  let sp := system_parts messages in
  mkGenRequest
    (match sp with [] => None | _ => Some (join (nl ++ nl) sp) end)
    (join (nl ++ nl) (user_messages messages))
    temp max_tokens.

Definition chat (self : GeminiService) (messages : list message)
    (temp : Q) (max_tokens : Z) : result string :=
  if negb (client_ready self) then Ok NOT_CONFIGURED_MSG
  else
    try_except
      (resp <- generate_content (build_request messages temp max_tokens) ;;
       match probe_text resp with
       | Some text => Ok text
       | None =>
           c <- probe_candidates resp ;;
           match c with
           | Some text => Ok text
           | None =>
               match probe_prompt_feedback resp with
               | Some text => Ok text
               | None => Ok EMPTY_MSG
               end
           end
       end)
      (fun _ => Ok FAILED_MSG).

End Gemini.

(** ** process_chat_service.py *)

Definition MAX_TOKENS : Z := 1024.
(** [f"{MAX_TOKENS}"] *)
Definition MAX_TOKENS_text : string := "1024".
Definition GENERAL_RESTRICT_INSTRUCTION_PROMT : string :=
  "Only provide the answer content. Do not include meta commentary, disclaimers, or statements about tokens or formatting.".

Record ChatRequest := mkChatRequest { text : string }.
Record ChatResponse := mkChatResponse { response : string; backend : string }.

(** The three names the function declares [global]. *)
Record globals := mkGlobals {
  planner_response : pyval;
  final_response : string;
  final_response_token : Z
}.

(** What the orchestrator calls, in call order. *)
Inductive event :=
| CallChat (messages : list message) (temp : Q) (max_tokens : Z)
| CallCountTokens (txt : string)
| CallStockData (ticker : pyval)
| CallNewsData.

Record state := mkState { glob : globals; trace : list event }.

(** Module state, call trace and exceptions. *)
Definition M (A : Type) : Type := state -> result A * state.

Definition ret {A} (a : A) : M A := fun s => (Ok a, s).
Definition bind {A B} (m : M A) (k : A -> M B) : M B :=
  fun s => match m s with
           | (Ok a, s') => k a s'
           | (Raise e, s') => (Raise e, s')
           end.
Definition lift {A} (r : result A) : M A := fun s => (r, s).
Definition emit (e : event) : M unit :=
  fun s => (Ok tt, mkState (glob s) (trace s ++ [e])).
Definition read : M globals := fun s => (Ok (glob s), s).
Definition write (g : globals) : M unit :=
  fun s => (Ok tt, mkState g (trace s)).
Definition try_when {A} (catch : exn -> bool) (m : M A) (h : exn -> M A) : M A :=
  fun s => match m s with
           | (Ok a, s') => (Ok a, s')
           | (Raise e, s') => if catch e then h e s' else (Raise e, s')
           end.

Declare Scope m_scope.
Delimit Scope m_scope with M.
Notation "x <-- m ;; k" := (bind m (fun x => k))
  (at level 61, m at next level, right associativity) : m_scope.
Notation "m ;;; k" := (bind m (fun _ => k))
  (at level 61, right associativity) : m_scope.

Definition set_planner_response (v : pyval) : M unit :=
  (g <-- read ;; write (mkGlobals v (final_response g) (final_response_token g)))%M.
Definition set_final_response (s : string) : M unit :=
  (g <-- read ;; write (mkGlobals (planner_response g) s (final_response_token g)))%M.
Definition set_final_response_token (n : Z) : M unit :=
  (g <-- read ;; write (mkGlobals (planner_response g) (final_response g) n))%M.

Definition dq : string := String (ascii_of_nat 34) EmptyString.

Definition PLANNER_SYSTEM_PROMPT : string :=
  "You are a routing agent. Analyze the user's request and output a JSON plan. "
  ++ "Possible intents are 'stock_analysis', 'market_news', and 'general_chat'. "
  ++ "The entity type is 'ticker'. Only output the JSON plan. Examples:" ++ nl
  ++ "User: 'Analyze Tesla (TSLA)' -> {" ++ dq ++ "intent" ++ dq ++ ": " ++ dq
  ++ "stock_analysis" ++ dq ++ ", " ++ dq ++ "entities" ++ dq ++ ": [{" ++ dq
  ++ "type" ++ dq ++ ": " ++ dq ++ "ticker" ++ dq ++ ", " ++ dq ++ "value" ++ dq
  ++ ": " ++ dq ++ "TSLA" ++ dq ++ "}]}" ++ nl
  ++ "User: 'give me the latest market news' -> {" ++ dq ++ "intent" ++ dq
  ++ ": " ++ dq ++ "market_news" ++ dq ++ ", " ++ dq ++ "entities" ++ dq
  ++ ": []}" ++ nl
  ++ "User: 'Hi there' -> {" ++ dq ++ "intent" ++ dq ++ ": " ++ dq
  ++ "general_chat" ++ dq ++ ", " ++ dq ++ "entities" ++ dq ++ ": []}".

Definition planner_messages (req : ChatRequest) : list message :=
  [ mkMessage "system" PLANNER_SYSTEM_PROMPT; mkMessage "user" (text req) ].

Definition NEED_TICKER_MSG : string :=
  "I can analyze a stock, but I need a valid ticker symbol.".
Definition NO_NEWS_MSG : string :=
  "Sorry, I couldn't retrieve the latest market news at the moment.".
(** [f"Sorry, I couldn't retrieve financial data for {ticker}."] *)
Definition no_stock_data_msg (ticker_text : string) : string :=
  "Sorry, I couldn't retrieve financial data for " ++ ticker_text ++ ".".

Definition stock_system_prompt : string :=
  "You are a smart stock analyst. Synthesize the following data into a concise analysis for a retail investor. Start the response directly with the analysis. Format response and provide response less than "
  ++ MAX_TOKENS_text ++ " tokens. " ++ GENERAL_RESTRICT_INSTRUCTION_PROMT.

Definition news_item_system_prompt : string :=
  "You are a financial news assistant. Summarize the following market news headlines and summaries into a clear, easy-to-read list for a general audience.Format response and provide response  less than "
  ++ MAX_TOKENS_text ++ " tokens. " ++ GENERAL_RESTRICT_INSTRUCTION_PROMT.

Definition news_final_system_prompt (req : ChatRequest) : string :=
  "You are a financial news assistant. " ++ text req
  ++ " Summarize the following market news headlines and summaries into a clear, easy-to-read list for a general audience.Format response and provide response  less than "
  ++ MAX_TOKENS_text ++ " tokens. " ++ GENERAL_RESTRICT_INSTRUCTION_PROMT.

Definition general_system_prompt : string :=
  "You are a financial assistant. You can provide a detailed analysis of a stock if given a ticker "
  ++ "(e.g., 'analyze TSLA') or provide the latest general market news. For other topics, act as a helpful assistant. Format response and provide response  less than "
  ++ MAX_TOKENS_text ++ " tokens. " ++ GENERAL_RESTRICT_INSTRUCTION_PROMT.

(** [v.strip()] on whatever the completion call gave: only text has it. *)
Definition py_strip (v : pyval) : result string :=
  match v with
  | PStr s => Ok (strip s)
  | _ => Raise AttributeError
  end.

(** [x or 0] on an integer *)
Definition or0 (x : Z) : Z := if x =? 0 then 0 else x.

(** The accumulated text after one more summary, line 99. *)
Definition append_summary (acc resp : string) : string :=
  if negb (String.eqb acc "") then acc ++ nl ++ resp else resp.

Record http_response := mkHttpResponse {
  status_code : Z;
  json : result pyval      (* [response.json()], which raises on a bad body *)
}.

(** What lies outside the repository: the generative SDK (as in section
    [Gemini]), [json.loads], [json.dumps(_, indent=2)], [str] inside an
    f-string, the HTTP client ([await client.get(url)] gives a response or
    the exception of the transport), and the two module constants
    [os.environ.get("ALPHA_VANTAGE_API_KEY")] and [_gemini]. *)
Record env := mkEnv {
  genai_installed : bool;
  generate_content : gen_request -> result dyn;
  count_tokens_api : string -> result dyn;
  py_int : dyn -> result Z;
  json_loads : string -> result pyval;
  json_dumps : pyval -> string;
  py_str : pyval -> string;
  http_get : string -> result http_response;
  ALPHA_VANTAGE_API_KEY : option string;
  _gemini : GeminiService
}.

Section Pipeline.

Variable E : env.

Definition gemini_chat := chat (generate_content E) (_gemini E).
Definition gemini_count_tokens :=
  count_tokens (genai_installed E) (count_tokens_api E) (py_int E) (_gemini E).

(** [not ALPHA_VANTAGE_API_KEY] *)
Definition key_missing : bool :=
  match ALPHA_VANTAGE_API_KEY E with
  | None => true
  | Some k => String.eqb k ""
  end.

Definition key_text : string :=
  match ALPHA_VANTAGE_API_KEY E with Some k => k | None => "None" end.

Definition news_url : string :=
  "https://www.alphavantage.co/query?function=NEWS_SENTIMENT&topics=financial_markets&limit=5&apikey="
  ++ key_text.

Definition news_item (item : pyval) : result pyval :=
  t <- get item "title" PNone ;;
  s <- get item "summary" PNone ;;
  Ok (PDict [("title", t); ("summary", s)]).

Definition get_market_news_data : result pyval :=
  if key_missing then Ok PNone
  else
    try_except_when is_request_error
      (resp <- http_get E news_url ;;
       ok <- (if status_code resp =? 200
              then body <- json resp ;; contains "feed" body
              else Ok false) ;;
       if ok then
         body <- json resp ;;
         news_feed <- get body "feed" (PList []) ;;
         items <- iterate news_feed ;;
         l <- mapM news_item items ;;
         Ok (PList l)
       else Ok PNone)
      (fun _ => Ok PNone).

Definition base_url : string := "https://www.alphavantage.co/query".

Definition quote_url (ticker : pyval) : string :=
  base_url ++ "?function=GLOBAL_QUOTE&symbol=" ++ py_str E ticker
  ++ "&apikey=" ++ key_text.
Definition overview_url (ticker : pyval) : string :=
  base_url ++ "?function=OVERVIEW&symbol=" ++ py_str E ticker
  ++ "&apikey=" ++ key_text.
Definition stock_news_url (ticker : pyval) : string :=
  base_url ++ "?function=NEWS_SENTIMENT&tickers=" ++ py_str E ticker
  ++ "&limit=5&apikey=" ++ key_text.

(** Lines 157-163. *)
Definition add_quote (quote_resp : http_response) (d : list (string * pyval))
  : result (list (string * pyval)) :=
  ok <- (if status_code quote_resp =? 200
         then body <- json quote_resp ;; contains "Global Quote" body
         else Ok false) ;;
  if ok then
    body <- json quote_resp ;;
    quote_data <- get body "Global Quote" (PDict []) ;;
    price <- get quote_data "05. price" PNone ;;
    change <- get quote_data "10. change percent" PNone ;;
    volume <- get quote_data "06. volume" PNone ;;
    Ok (dict_set "quote"
          (PDict [("price", price); ("change_percent", change);
                  ("volume", volume)]) d)
  else Ok d.

(** Lines 164-172. *)
Definition add_overview (overview_resp : http_response)
    (d : list (string * pyval)) : result (list (string * pyval)) :=
  if status_code overview_resp =? 200 then
    overview_data <- json overview_resp ;;
    cap <- get overview_data "MarketCapitalization" PNone ;;
    pe <- get overview_data "PERatio" PNone ;;
    eps <- get overview_data "EPS" PNone ;;
    hi <- get overview_data "52WeekHigh" PNone ;;
    lo <- get overview_data "52WeekLow" PNone ;;
    Ok (dict_set "overview"
          (PDict [("market_cap", cap); ("pe_ratio", pe); ("eps", eps);
                  ("52_week_high", hi); ("52_week_low", lo)]) d)
  else Ok d.

Definition stock_news_item (item : pyval) : result pyval :=
  t <- get item "title" PNone ;;
  s <- get item "overall_sentiment_label" PNone ;;
  Ok (PDict [("title", t); ("sentiment", s)]).

(** Lines 173-178. *)
Definition add_news (news_resp : http_response) (d : list (string * pyval))
  : result (list (string * pyval)) :=
  ok <- (if status_code news_resp =? 200
         then body <- json news_resp ;; contains "feed" body
         else Ok false) ;;
  if ok then
    body <- json news_resp ;;
    news_feed <- get body "feed" (PList []) ;;
    items <- iterate_slice 3 news_feed ;;
    l <- mapM stock_news_item items ;;
    Ok (dict_set "news" (PList l) d)
  else Ok d.

(** Lines 156-180, once the three awaited results are responses. *)
Definition consolidate (quote_resp overview_resp news_resp : http_response)
  : result pyval :=
  d1 <- add_quote quote_resp [] ;;
  d2 <- add_overview overview_resp d1 ;;
  d3 <- add_news news_resp d2 ;;
  Ok (PDict d3).

(** [asyncio.gather(..., return_exceptions=True)] hands back, for each
    request, the response or the exception it raised; the first exception
    found makes the function return [None], and so does anything raised
    while the bodies are read. *)
Definition get_stock_analysis_data (ticker : pyval) : result pyval :=
  if key_missing then Ok PNone
  else
    try_except
      (match http_get E (quote_url ticker), http_get E (overview_url ticker),
             http_get E (stock_news_url ticker) with
       | Ok quote_resp, Ok overview_resp, Ok news_resp =>
           consolidate quote_resp overview_resp news_resp
       | _, _, _ => Ok PNone
       end)
      (fun _ => Ok PNone).

Open Scope m_scope.

Definition call_chat (messages : list message) (temp : Q) (max_tokens : Z)
  : M string :=
  emit (CallChat messages temp max_tokens) ;;;
  lift (gemini_chat messages temp max_tokens).

Definition call_count_tokens (txt : string) : M Z :=
  emit (CallCountTokens txt) ;;; ret (gemini_count_tokens txt).

(** Lines 46-47: removal of a markdown fence. *)
Definition strip_fences (cleaned : string) : string :=
  if startswith cleaned "```json"
  then strip (removesuffix (removeprefix cleaned "```json") "```")
  else cleaned.

(** Lines 45-49. *)
Definition decode_plan (planner_out : pyval) : result pyval :=
  (cleaned <- py_strip planner_out ;;
   json_loads E (strip_fences cleaned))%Z.

Definition fallback_plan : pyval := PDict [("intent", PStr "general_chat")].

(** Lines 41-52, for any way [produce] of obtaining the completion. *)
Definition planning (produce : M pyval) : M pyval :=
  try_when is_decode_or_type_error
    (out <-- produce ;;
     set_planner_response out ;;;
     lift (decode_plan out))
    (fun _ => ret fallback_plan).

Definition news_item_messages (item : pyval) : list message :=
  [ mkMessage "system" news_item_system_prompt;
    mkMessage "user" ("Market News:" ++ nl ++ py_str E item) ].

(** Lines 88-100, one pass of the loop body: [false] stands for [break]. *)
Definition news_iteration (item : pyval) : M bool :=
  resp <-- call_chat (news_item_messages item) (1 # 2) 1024 ;;
  resp_token <-- call_count_tokens resp ;;
  g <-- read ;;
  if (or0 (final_response_token g) + resp_token >? MAX_TOKENS)%Z
  then ret false
  else
    call_count_tokens resp ;;;
    set_final_response (append_summary (final_response g) resp) ;;;
    g' <-- read ;;
    n <-- call_count_tokens (final_response g') ;;
    set_final_response_token n ;;;
    ret true.

(** Lines 86-100: [for item in news_data]. *)
Fixpoint news_loop (news_data : list pyval) : M unit :=
  match news_data with
  | [] => ret tt
  | item :: rest =>
      go <-- news_iteration item ;;
      if go then news_loop rest else ret tt
  end.

Definition stock_branch (plan : pyval) : M ChatResponse :=
  entities <-- lift (get plan "entities" (PList [])) ;;
  no_ticker <--
    (if negb (truthy entities) then ret true
     else
       first <-- lift (index0 entities) ;;
       ty <-- lift (get first "type" PNone) ;;
       ret (negb (eq_str ty "ticker"))) ;;
  if no_ticker then ret (mkChatResponse NEED_TICKER_MSG "gemini")
  else
    first <-- lift (index0 entities) ;;
    ticker <-- lift (get first "value" PNone) ;;
    emit (CallStockData ticker) ;;;
    stock_data <-- lift (get_stock_analysis_data ticker) ;;
    if negb (truthy stock_data)
    then ret (mkChatResponse (no_stock_data_msg (py_str E ticker)) "gemini")
    else
      r <-- call_chat
              [ mkMessage "system" stock_system_prompt;
                mkMessage "user"
                  ("Data for " ++ py_str E ticker ++ ":" ++ nl
                   ++ json_dumps E stock_data) ]
              (1 # 2) 1024 ;;
      set_final_response r ;;;
      ret (mkChatResponse r "gemini").

Definition news_branch (req : ChatRequest) : M ChatResponse :=
  emit CallNewsData ;;;
  news_data <-- lift get_market_news_data ;;
  if negb (truthy news_data)
  then ret (mkChatResponse NO_NEWS_MSG "gemini")
  else
    set_final_response_token 0 ;;;
    set_final_response "" ;;;
    items <-- lift (iterate news_data) ;;
    news_loop items ;;;
    g <-- read ;;
    r <-- call_chat
            [ mkMessage "system" (news_final_system_prompt req);
              mkMessage "user" ("Market News:" ++ nl ++ final_response g) ]
            (1 # 2) (MAX_TOKENS * 2)%Z ;;
    set_final_response r ;;;
    ret (mkChatResponse r "gemini").

Definition general_branch (req : ChatRequest) : M ChatResponse :=
  resp <-- call_chat
             [ mkMessage "system" general_system_prompt;
               mkMessage "user" (text req) ]
             (1 # 2) 512 ;;
  ret (mkChatResponse resp "gemini").

(** Lines 55-119. *)
Definition executor (req : ChatRequest) (plan : pyval) : M ChatResponse :=
  intent <-- lift (get plan "intent" PNone) ;;
  if eq_str intent "stock_analysis" then stock_branch plan
  else if eq_str intent "market_news" then news_branch req
  else general_branch req.

Definition reset_globals : M unit :=
  set_planner_response (PStr "") ;;;
  set_final_response "" ;;;
  set_final_response_token 0.

(** The pipeline for any way of obtaining the planner's completion. *)
Definition pipeline (req : ChatRequest) (produce : M pyval) : M ChatResponse :=
  reset_globals ;;;
  plan <-- planning produce ;;
  executor req plan.

Definition planner_call (req : ChatRequest) : M pyval :=
  r <-- call_chat (planner_messages req) 0 1000 ;;
  ret (PStr r).

Definition process_request (req : ChatRequest) : M ChatResponse :=
  pipeline req (planner_call req).

Close Scope m_scope.

End Pipeline.

(** ** A concrete environment, to run the model on examples *)

Definition text_reply (s : string) : dyn := DObj [("text", Has (DStr s))].

Definition STOCK_PLAN_TEXT : string :=
  "{" ++ dq ++ "intent" ++ dq ++ ": " ++ dq ++ "stock_analysis" ++ dq ++ ", "
  ++ dq ++ "entities" ++ dq ++ ": [{" ++ dq ++ "type" ++ dq ++ ": " ++ dq
  ++ "ticker" ++ dq ++ ", " ++ dq ++ "value" ++ dq ++ ": " ++ dq ++ "TSLA"
  ++ dq ++ "}]}".
Definition NEWS_PLAN_TEXT : string :=
  "{" ++ dq ++ "intent" ++ dq ++ ": " ++ dq ++ "market_news" ++ dq ++ ", "
  ++ dq ++ "entities" ++ dq ++ ": []}".
Definition NO_VALUE_PLAN_TEXT : string :=
  "{" ++ dq ++ "intent" ++ dq ++ ": " ++ dq ++ "stock_analysis" ++ dq ++ ", "
  ++ dq ++ "entities" ++ dq ++ ": [{" ++ dq ++ "type" ++ dq ++ ": " ++ dq
  ++ "ticker" ++ dq ++ "}]}".
Definition NO_INTENT_PLAN_TEXT : string :=
  "{" ++ dq ++ "entities" ++ dq ++ ": []}".

Definition ticker_plan (ticker : pyval) : pyval :=
  PDict [("intent", PStr "stock_analysis");
         ("entities", PList [PDict [("type", PStr "ticker"); ("value", ticker)]])].

(** What [json.loads] answers on a handful of texts; every other text of
    this table is taken as undecodable. *)
Definition demo_loads (s : string) : result pyval :=
  if String.eqb s STOCK_PLAN_TEXT then Ok (ticker_plan (PStr "TSLA"))
  else if String.eqb s NEWS_PLAN_TEXT
  then Ok (PDict [("intent", PStr "market_news"); ("entities", PList [])])
  else if String.eqb s NO_VALUE_PLAN_TEXT
  then Ok (PDict [("intent", PStr "stock_analysis");
                  ("entities", PList [PDict [("type", PStr "ticker")]])])
  else if String.eqb s NO_INTENT_PLAN_TEXT then Ok (PDict [("entities", PList [])])
  else if String.eqb s "null" then Ok PNone
  else if String.eqb s "[]" then Ok (PList [])
  else Raise JSONDecodeError.

Definition demo_str (v : pyval) : string :=
  match v with
  | PStr s => s
  | PNone => "None"
  | PDict d =>
      match dict_lookup "title" d with
      | Some (PStr t) => "{'title': '" ++ t ++ "'}"
      | _ => "{}"
      end
  | _ => "?"
  end.

Definition demo_dumps (v : pyval) : string :=
  match v with
  | PDict d => "{" ++ join ", " (map fst d) ++ "}"
  | _ => "null"
  end.

(** A backend that answers the planner with [plan_text] and any other
    request with an echo of its prompt. *)
Definition demo_generate (plan_text : string) (r : gen_request) : result dyn :=
  match system_instruction r with
  | Some sp =>
      if String.eqb sp PLANNER_SYSTEM_PROMPT then Ok (text_reply plan_text)
      else Ok (text_reply ("Digest: " ++ prompt r))
  | None => Ok (text_reply ("Digest: " ++ prompt r))
  end.

(** A counter that charges one token per character. *)
Definition demo_count (s : string) : result dyn :=
  Ok (DObj [("total_tokens", Has (DInt (Z.of_nat (String.length s))))]).

Definition demo_int (v : dyn) : result Z :=
  match v with DInt z => Ok z | _ => Raise TypeError end.

Definition demo_env (plan_text : string) (key : option string)
    (http : string -> result http_response)
    (counter : string -> result dyn) : env :=
  mkEnv true (demo_generate plan_text) counter demo_int demo_loads demo_dumps
        demo_str http key (mkGemini true).

Definition no_network (url : string) : result http_response :=
  Raise RequestError.

Definition notice_body : pyval :=
  PDict [("Information", PStr "API rate limit reached")].

(** A provider that answers every request with status 200 and a notice. *)
Definition notice_http (url : string) : result http_response :=
  Ok (mkHttpResponse 200 (Ok notice_body)).

Definition feed_item (t : string) : pyval :=
  PDict [("title", PStr t); ("summary", PStr "s")].

Definition news_http (titles : list string) (url : string)
  : result http_response :=
  Ok (mkHttpResponse 200 (Ok (PDict [("feed", PList (map feed_item titles))]))).

Definition st0 : state := mkState (mkGlobals PNone "" 0) [].

(** ** llm_service.py *)

(** What [AlphaVantageService] reaches outside the repository: the value
    of [os.getenv("ALPHA_VANTAGE_API_KEY")], [urllib.parse.urlencode], and
    [session.get(url, timeout=15)]. *)
Record av_env := mkAvEnv {
  av_getenv_key : option string;
  av_urlencode : list (string * pyval) -> string;
  av_session_get : string -> result http_response
}.

Record AlphaVantageService := mkAlphaVantage { av_api_key : option string }.

(** [__init__]: the [api_key] argument is not used. *)
Definition av_init (A : av_env) (api_key : option string) : AlphaVantageService :=
  mkAlphaVantage (av_getenv_key A).

(** [r.raise_for_status()] *)
Definition raise_for_status (r : http_response) : result unit :=
  if (400 <=? status_code r) && (status_code r <? 600)
  then Raise (OtherError "HTTPError")
  else Ok tt.

(** [a or b] on two values *)
Definition py_or (a b : pyval) : pyval := if truthy a then a else b.

(** The test of line 47: a dict with a truthy notice entry. *)
Definition is_notice (data : pyval) : bool :=
  match data with
  | PDict d =>
      truthy (py_or (py_or (dict_get "Note" d PNone)
                           (dict_get "Information" d PNone))
                    (dict_get "Error Message" d PNone))
  | _ => false
  end.

Definition AV_BASE_URL : string := "https://www.alphavantage.co/query".

(** The URL [_get] requests for [params] with key [k]. *)
Definition av_url (A : av_env) (k : string) (params : list (string * pyval))
  : string :=
  AV_BASE_URL ++ "?" ++ av_urlencode A (dict_set "apikey" (PStr k) params).

Definition _get (A : av_env) (self : AlphaVantageService)
    (params : list (string * pyval)) : result pyval :=
  match av_api_key self with
  | None => Raise (OtherError "RuntimeError")
  | Some k =>
      if String.eqb k "" then Raise (OtherError "RuntimeError")
      else
        try_except
          (r <- av_session_get A (av_url A k params) ;;
           _ <- raise_for_status r ;;
           data <- json r ;;
           if is_notice data then Ok data else Ok data)
          (fun e => Raise e)
  end.

Definition quote (A : av_env) (self : AlphaVantageService) (symbol : pyval)
  : result pyval :=
  _get A self [("function", PStr "GLOBAL_QUOTE"); ("symbol", symbol)].

Definition overview (A : av_env) (self : AlphaVantageService) (symbol : pyval)
  : result pyval :=
  _get A self [("function", PStr "OVERVIEW"); ("symbol", symbol)].

Definition time_series_daily (A : av_env) (self : AlphaVantageService)
    (symbol : pyval) (adjusted : bool) (outputsize : pyval) : result pyval :=
  _get A self
    [("function",
      PStr (if adjusted then "TIME_SERIES_DAILY_ADJUSTED"
            else "TIME_SERIES_DAILY"));
     ("symbol", symbol); ("outputsize", outputsize)].

(** [if v: params[k] = v] *)
Definition set_if (k : string) (v : pyval) (d : list (string * pyval))
  : list (string * pyval) :=
  if truthy v then dict_set k v d else d.

(** The parameters [news_sentiment] hands to [_get]; an argument left out
    is [None]. *)
Definition news_sentiment_params (tickers topics time_from time_to sort
    limit : pyval) : list (string * pyval) :=
  set_if "limit" limit
    (set_if "sort" sort
       (set_if "time_to" time_to
          (set_if "time_from" time_from
             (set_if "topics" topics
                (set_if "tickers" tickers
                   [("function", PStr "NEWS_SENTIMENT")]))))).

Definition news_sentiment (A : av_env) (self : AlphaVantageService)
    (tickers topics time_from time_to sort limit : pyval) : result pyval :=
  _get A self (news_sentiment_params tickers topics time_from time_to sort limit).

(** [LLMService.chat]: the placeholder echoes the last message. *)
Definition llm_chat (messages : list message) : string :=
  "Echo: " ++ match rev messages with
              | m :: _ => content m
              | [] => ""
              end.

(** ** api/routers/chat.py *)

(** What the endpoint gives the framework: the response model, or the
    [HTTPException] it raised. *)
Inductive endpoint_result :=
| Returned (r : ChatResponse)
| HTTPException (status : Z) (detail : string).

(** [os.getenv("CHAT_MODEL_BACKEND", "gemini")] *)
Definition CHAT_MODEL_BACKEND (getenv : option string) : string :=
  match getenv with Some v => v | None => "gemini" end.

(** [chat_endpoint]; [exn_str] is [str(e)]. *)
Definition chat_endpoint (E : env) (backend_env : option string)
    (exn_str : exn -> string) (req : ChatRequest) (st : state)
  : endpoint_result * state :=
  if String.eqb (CHAT_MODEL_BACKEND backend_env) "gemini" then
    match process_request E req st with
    | (Ok r, st') => (Returned r, st')
    | (Raise e, st') => (HTTPException 500 (exn_str e), st')
    end
  else
    (Returned (mkChatResponse (llm_chat [mkMessage "user" (text req)]) "mistral"),
     st).

(** ** main.py: the CORS settings *)

Definition comma : ascii := ascii_of_nat 44.

(** [s.split(",")] *)
Fixpoint split_comma (s : string) : list string :=
  match s with
  | EmptyString => [EmptyString]
  | String c r =>
      if Ascii.eqb c comma then EmptyString :: split_comma r
      else match split_comma r with
           | h :: t => String c h :: t
           | [] => [String c EmptyString]
           end
  end.

Inductive cors_origins :=
| AllowOrigins (origins : list string)
| AllowOriginRegex (regex : string).

Definition DEFAULT_ORIGIN_REGEX : string :=
  "https?://(localhost|127\.0\.0\.1)(:\d+)?".

(** Lines 33-45; the arguments are the two values of [os.getenv] before
    their defaults. *)
Definition cors_settings (allow_origins allow_origin_regex : option string)
  : cors_origins :=
  let ALLOW_ORIGINS :=
    strip (match allow_origins with Some v => v | None => "" end) in
  let ALLOW_ORIGIN_REGEX :=
    match allow_origin_regex with
    | Some v => v
    | None => DEFAULT_ORIGIN_REGEX
    end in
  if negb (String.eqb ALLOW_ORIGINS "") then
    AllowOrigins
      (map strip
         (filter (fun o => negb (String.eqb (strip o) ""))
                 (split_comma ALLOW_ORIGINS)))
  else AllowOriginRegex ALLOW_ORIGIN_REGEX.

(** ** Views used to state the properties *)

(** Whether a reply of the SDK carries text: through its [text] accessor,
    or in the parts of its first candidate. *)
Definition reply_has_text (resp : dyn) : bool :=
  match probe_text resp with
  | Some _ => true
  | None =>
      match getattr resp "candidates" with
      | Ok cand =>
          dyn_truthy cand &&
          match (first <- dyn_index0 cand ;; candidate_text first) with
          | Ok (Some _) => true
          | _ => false
          end
      | Raise _ => false
      end
  end.

(** The fixed strings [chat] answers with when the backend gave no text. *)
Definition is_apology (s : string) : bool :=
  String.eqb s SAFETY_MSG || String.eqb s EMPTY_MSG || String.eqb s FAILED_MSG.

(** A reply blocked by the safety filter: no part, safety ratings set. *)
Definition blocked_reply : dyn :=
  DObj [("text", Fails (OtherError "ValueError"));
        ("candidates",
         Has (DSeq [DObj [("finish_reason", Has (DOther true));
                          ("content", Has (DObj [("parts", Has (DSeq []))]));
                          ("safety_ratings", Has (DSeq [DOther true]))]]))].

(** The string a completion call returns ([chat] never raises). *)
Definition reply (E : env) (messages : list message) (temp : Q)
    (max_tokens : Z) : string :=
  match gemini_chat E messages temp max_tokens with
  | Ok s => s
  | Raise _ => FAILED_MSG
  end.

(** The candidate summary of a news item, and its measured token count. *)
Definition summary (E : env) (item : pyval) : string :=
  reply E (news_item_messages E item) (1 # 2) 1024.

Definition summary_tokens (E : env) (item : pyval) : Z :=
  gemini_count_tokens E (summary E item).

(** A digest: an earlier text, when there is one, then the summaries, each
    on a line of its own. *)
Definition digest (text0 : string) (summaries : list string) : string :=
  join nl ((if String.eqb text0 "" then [] else [text0]) ++ summaries).

(** The accumulated text once the summaries of the first [k] items have
    been appended to [text0], and the token count held with it: the
    starting count while nothing is appended, the measure of the
    accumulated text afterwards. *)
Definition acc_text (E : env) (text0 : string) (items : list pyval)
    (k : nat) : string :=
  digest text0 (map (summary E) (firstn k items)).

Definition acc_tokens (E : env) (text0 : string) (tok0 : Z)
    (items : list pyval) (k : nat) : Z :=
  match k with
  | O => tok0
  | S _ => gemini_count_tokens E (acc_text E text0 items k)
  end.

(** The message lists of the completion calls of a trace, in order. *)
Definition chat_calls (tr : list event) : list (list message) :=
  flat_map (fun e => match e with CallChat ms _ _ => [ms] | _ => [] end) tr.

(** The argument of the aggregator calls of a trace, in order. *)
Definition stock_data_calls (tr : list event) : list pyval :=
  flat_map (fun e => match e with CallStockData t => [t] | _ => [] end) tr.

(** A token counter that is out of reach. *)
Definition unavailable_counter (s : string) : result dyn :=
  Raise (OtherError "ServiceUnavailable").

(** Whether the body of a response decodes and holds key [k]. *)
Definition has_key (k : string) (r : http_response) : bool :=
  match json r with
  | Ok body => match contains k body with Ok true => true | _ => false end
  | Raise _ => false
  end.

Definition is_dict (v : pyval) : bool :=
  match v with PDict _ => true | _ => false end.

Definition body_dict (r : http_response) : option (list (string * pyval)) :=
  match json r with Ok (PDict b) => Some b | _ => None end.

(** Provider-shaped bodies: a response with status 200 carries a JSON
    object; a [Global Quote] entry is an object; a [feed] entry is a list
    whose first three elements are objects. *)
Definition quote_shape (r : http_response) : bool :=
  negb (status_code r =? 200) ||
  match body_dict r with
  | Some b => match dict_lookup "Global Quote" b with
              | Some v => is_dict v
              | None => true
              end
  | None => false
  end.

Definition overview_shape (r : http_response) : bool :=
  negb (status_code r =? 200) ||
  match body_dict r with Some _ => true | None => false end.

Definition news_shape (r : http_response) : bool :=
  negb (status_code r =? 200) ||
  match body_dict r with
  | Some b => match dict_lookup "feed" b with
              | Some (PList l) => forallb is_dict (firstn 3 l)
              | Some _ => false
              | None => true
              end
  | None => false
  end.

(** The fields the code reads in the body of the overview lookup. *)
Definition overview_keys : list string :=
  ["MarketCapitalization"; "PERatio"; "EPS"; "52WeekHigh"; "52WeekLow"].

Definition stock_synth_messages (E : env) (ticker stock_data : pyval)
  : list message :=
  [ mkMessage "system" stock_system_prompt;
    mkMessage "user"
      ("Data for " ++ py_str E ticker ++ ":" ++ nl ++ json_dumps E stock_data) ].

Definition general_messages (req : ChatRequest) : list message :=
  [ mkMessage "system" general_system_prompt; mkMessage "user" (text req) ].

Definition news_plan : pyval :=
  PDict [("intent", PStr "market_news"); ("entities", PList [])].

(** A provider whose overview lookup fails at the transport level. *)
Definition overview_down_http (url : string) : result http_response :=
  if str_contains "function=OVERVIEW" url then Raise RequestError
  else Ok (mkHttpResponse 200 (Ok notice_body)).

(** A provider that answers the three lookups with data. *)
Definition data_http (url : string) : result http_response :=
  if str_contains "function=GLOBAL_QUOTE" url then
    Ok (mkHttpResponse 200
          (Ok (PDict [("Global Quote",
                       PDict [("05. price", PStr "250.10");
                              ("06. volume", PStr "1000")])])))
  else if str_contains "function=OVERVIEW" url then
    Ok (mkHttpResponse 200 (Ok (PDict [("PERatio", PStr "60.2")])))
  else Ok (mkHttpResponse 429 (Raise JSONDecodeError)).

(** The planner's output is text on which [json.loads] raises an exception
    that line 50 catches, or that decodes to an object without an [intent]
    key. *)
Definition malformed_text (E : env) (s : string) : Prop :=
  (exists e, json_loads E (strip_fences (strip s)) = Raise e
             /\ is_decode_or_type_error e = true)
  \/ exists d, json_loads E (strip_fences (strip s)) = Ok (PDict d)
               /\ dict_lookup "intent" d = None.

(** The environment with another HTTP client. *)
Definition with_http (E : env) (h : string -> result http_response) : env :=
  mkEnv (genai_installed E) (generate_content E) (count_tokens_api E)
        (py_int E) (json_loads E) (json_dumps E) (py_str E) h
        (ALPHA_VANTAGE_API_KEY E) (_gemini E).

(** Sample environments. *)
Definition notice_env : env :=
  demo_env STOCK_PLAN_TEXT (Some "demo") notice_http demo_count.
Definition data_env : env :=
  demo_env STOCK_PLAN_TEXT (Some "demo") data_http demo_count.
Definition overview_down_env : env :=
  demo_env STOCK_PLAN_TEXT (Some "demo") overview_down_http demo_count.
Definition no_key_env : env :=
  demo_env NEWS_PLAN_TEXT None no_network demo_count.
Definition no_counter_env : env :=
  demo_env NEWS_PLAN_TEXT (Some "demo") (news_http ["a"; "b"])
           unavailable_counter.

(** A stock_analysis plan whose ticker entity carries no value. *)
Definition no_value_plan : list (string * pyval) :=
  [("intent", PStr "stock_analysis");
   ("entities", PList [PDict [("type", PStr "ticker")]])].

(** A stock_analysis plan without entities. *)
Definition no_entity_plan : list (string * pyval) :=
  [("intent", PStr "stock_analysis")].

(** The module state right after lines 25-27. *)
Definition fresh_globals : globals := mkGlobals (PStr "") "" 0.

(** A computation is [framed] when, from given module state, its result,
    its final module state and the events it appends do not depend on the
    trace it starts with. *)
Definition framed {A} (m : M A) : Prop :=
  forall g, exists r g' ev,
    forall tr, m (mkState g tr) = (r, mkState g' (tr ++ ev)).

(** The roles [chat] reads. *)
Definition kept_role (m : message) : bool :=
  String.eqb (role m) "system" || String.eqb (role m) "user".

(** A reply of several parts, as the SDK gives it when its [text]
    accessor refuses to answer. *)
Definition part_obj (t : string) : dyn := DObj [("text", Has (DStr t))].

Definition parts_reply (texts : list string) : dyn :=
  DObj [("text", Fails (OtherError "ValueError"));
        ("candidates",
         Has (DSeq [DObj [("content",
                           Has (DObj [("parts",
                                       Has (DSeq (map part_obj texts)))]))]]))].

(** A token count as the SDK reports it, under either attribute name. *)
Definition count_reply (name : string) (n : Z) : dyn :=
  DObj [(name, Has (DInt n))].

(** Every value a computation returns satisfies [P]. *)
Definition returns {A} (P : A -> Prop) (m : M A) : Prop :=
  forall st a st', m st = (Ok a, st') -> P a.

(** What the two data functions keep of a news item. *)
Definition news_projection (item : pyval) : pyval :=
  match item with
  | PDict d => PDict [("title", dict_get "title" d PNone);
                      ("summary", dict_get "summary" d PNone)]
  | _ => PNone
  end.

Definition stock_news_projection (item : pyval) : pyval :=
  match item with
  | PDict d => PDict [("title", dict_get "title" d PNone);
                      ("sentiment", dict_get "overall_sentiment_label" d PNone)]
  | _ => PNone
  end.

(** The messages of the last completion call of the news branch, for an
    accumulated digest. *)
Definition news_final_messages (req : ChatRequest) (digest : string)
  : list message :=
  [ mkMessage "system" (news_final_system_prompt req);
    mkMessage "user" ("Market News:" ++ nl ++ digest) ].

(** The text the planner's completion decodes from. *)
Definition planner_text (E : env) (req : ChatRequest) : string :=
  strip_fences (strip (reply E (planner_messages req) 0 1000)).

(** Strings made of blanks only, of commas and blanks only, and strings
    without a comma. *)
Definition all_blank (s : string) : Prop :=
  Forall (fun c => is_space c = true) (list_ascii_of_string s).

Definition only_separators (s : string) : Prop :=
  Forall (fun c => c = comma \/ is_space c = true) (list_ascii_of_string s).



(** More sample providers, counters and environments. *)
Definition garbled_http (url : string) : result http_response :=
  Ok (mkHttpResponse 200 (Raise JSONDecodeError)).

Definition four_item_feed : list pyval :=
  [PDict [("title", PStr "t1"); ("overall_sentiment_label", PStr "Bullish")];
   PDict [("title", PStr "t2")];
   PDict [("title", PStr "t3"); ("overall_sentiment_label", PStr "Neutral")];
   PDict [("title", PStr "t4")]].

Definition feed_http (url : string) : result http_response :=
  if str_contains "function=NEWS_SENTIMENT" url
  then Ok (mkHttpResponse 200 (Ok (PDict [("feed", PList four_item_feed)])))
  else Ok (mkHttpResponse 200 (Ok notice_body)).

Definition heavy_counter (s : string) : result dyn :=
  Ok (count_reply "total_tokens" 2000).

Definition zero_counter (s : string) : result dyn :=
  Ok (count_reply "total_tokens" 0).

Definition list_plan_env : env := demo_env "[]" None no_network demo_count.
Definition offline_env : env :=
  demo_env NEWS_PLAN_TEXT (Some "demo") no_network demo_count.
Definition garbled_env : env :=
  demo_env NEWS_PLAN_TEXT (Some "demo") garbled_http demo_count.
Definition feed_env : env :=
  demo_env STOCK_PLAN_TEXT (Some "demo") feed_http demo_count.
Definition news_env : env :=
  demo_env NEWS_PLAN_TEXT (Some "demo") (news_http ["a"; "b"]) demo_count.
Definition heavy_env : env :=
  demo_env NEWS_PLAN_TEXT (Some "demo") (news_http ["a"; "b"]) heavy_counter.

Definition demo_exn_str (e : exn) : string :=
  match e with
  | AttributeError => "'list' object has no attribute 'get'"
  | _ => "error"
  end.

Definition demo_av_env (key : option string) : av_env :=
  mkAvEnv key (fun ps => join "&" (map fst ps))
          (fun url => Ok (mkHttpResponse 200 (Ok notice_body))).

Definition FENCED_NEWS_PLAN : string :=
  "  ```json" ++ nl ++ NEWS_PLAN_TEXT ++ nl ++ "```  ".

(** A provider in an outage: every lookup is answered with status 503. *)
Definition down_http (url : string) : result http_response :=
  Ok (mkHttpResponse 503 (Raise JSONDecodeError)).

Definition down_env : env :=
  demo_env STOCK_PLAN_TEXT (Some "demo") down_http demo_count.

(** ** GeminiService.chat *)

Lemma chat_total :
  forall gen self messages temp max_tokens,
    exists s, chat gen self messages temp max_tokens = Ok s.
Proof.
  intros gen self messages temp max_tokens. unfold chat.
  destruct (client_ready self); cbn [negb]; [|eauto].
  destruct (gen (build_request messages temp max_tokens)) as [resp|e];
    cbn [rbind try_except]; [|eauto].
  destruct (probe_text resp); cbn [try_except]; [eauto|].
  destruct (probe_candidates resp) as [[t|]|e]; cbn [rbind try_except]; eauto.
  destruct (probe_prompt_feedback resp); cbn [try_except]; eauto.
Qed.

Lemma probe_candidates_no_text :
  forall resp, reply_has_text resp = false -> probe_text resp = None ->
    probe_candidates resp = Ok (Some SAFETY_MSG)
    \/ probe_candidates resp = Ok None
    \/ exists e, probe_candidates resp = Raise e.
Proof.
  intros resp H Ht. unfold reply_has_text in H. rewrite Ht in H.
  unfold probe_candidates.
  destruct (getattr resp "candidates") as [cand|e]; cbn [rbind]; [|eauto].
  destruct (dyn_truthy cand); cbn [andb] in H; [|auto].
  destruct (dyn_index0 cand) as [first|e]; cbn [rbind try_except] in *; [|auto].
  destruct (getattr_or first "finish_reason" "finishReason") as [fr|e];
    cbn [rbind]; [|auto].
  destruct (candidate_text first) as [[t|]|e]; cbn [rbind];
    try discriminate; auto.
  destruct (getattr_or first "safety_ratings" "safetyRatings") as [sf|e];
    cbn [rbind]; [|auto].
  match goal with |- context [if ?b then _ else _] => destruct b end; auto.
Qed.

Lemma probe_prompt_feedback_cases :
  forall resp, probe_prompt_feedback resp = Some SAFETY_MSG
               \/ probe_prompt_feedback resp = None.
Proof.
  intros resp. unfold probe_prompt_feedback.
  destruct (getattr_or resp "prompt_feedback" "promptFeedback") as [pf|e];
    cbn [rbind]; [|auto].
  destruct (dyn_truthy pf); [|auto].
  destruct (getattr pf "block_reason") as [br|e]; cbn [rbind]; [|auto].
  destruct (dyn_truthy br); auto.
Qed.

(** C7. [chat] never raises: whatever the backend does (a reply with text,
    a blocked, empty or truncated reply, an exception of the SDK) the call
    returns a string; when the SDK raises it returns the fixed failure
    text, and when the reply carries no text it returns one of the fixed
    apologies. *)
Theorem chat_never_raises :
  forall (gen : gen_request -> result dyn) (self : GeminiService)
         (messages : list message) (temp : Q) (max_tokens : Z),
    (exists s, chat gen self messages temp max_tokens = Ok s)
    /\ (forall e,
          client_ready self = true ->
          gen (build_request messages temp max_tokens) = Raise e ->
          chat gen self messages temp max_tokens = Ok FAILED_MSG)
    /\ (forall resp,
          client_ready self = true ->
          gen (build_request messages temp max_tokens) = Ok resp ->
          reply_has_text resp = false ->
          exists s, chat gen self messages temp max_tokens = Ok s
                    /\ is_apology s = true).
Proof.
  intros gen self messages temp max_tokens. split; [apply chat_total|].
  split.
  - intros e Hr He. unfold chat. rewrite Hr, He. reflexivity.
  - intros resp Hr Hg Hn. unfold chat. rewrite Hr, Hg.
    cbn [negb rbind try_except].
    assert (Ht : probe_text resp = None).
    { unfold reply_has_text in Hn. destruct (probe_text resp); [discriminate|reflexivity]. }
    rewrite Ht.
    destruct (probe_candidates_no_text resp Hn Ht) as [H|[H|[e H]]];
      rewrite H; cbn [rbind try_except].
    + exists SAFETY_MSG. split; reflexivity.
    + destruct (probe_prompt_feedback_cases resp) as [H'|H']; rewrite H'.
      * exists SAFETY_MSG. split; reflexivity.
      * exists EMPTY_MSG. split; reflexivity.
    + exists FAILED_MSG. split; reflexivity.
Qed.

(** The theorem at a reply blocked by the safety filter. *)
Lemma chat_never_raises_witness :
  exists s,
    chat (fun _ => Ok blocked_reply) (mkGemini true)
         [mkMessage "user" "hello"] (1 # 2) 512 = Ok s
    /\ is_apology s = true.
Proof.
  apply (proj2 (proj2 (chat_never_raises (fun _ => Ok blocked_reply)
                         (mkGemini true) [mkMessage "user" "hello"]
                         (1 # 2) 512)) blocked_reply);
    reflexivity.
Defined.

(** ** The call trace is write-only *)

Lemma framed_ret : forall A (a : A), framed (ret a).
Proof.
  intros A a g. exists (Ok a), g, []. intros tr. unfold ret.
  now rewrite app_nil_r.
Qed.

Lemma framed_lift : forall A (r : result A), framed (lift r).
Proof.
  intros A r g. exists r, g, []. intros tr. unfold lift.
  now rewrite app_nil_r.
Qed.

Lemma framed_emit : forall e, framed (emit e).
Proof. intros e g. exists (Ok tt), g, [e]. reflexivity. Qed.

Lemma framed_read : framed read.
Proof.
  intros g. exists (Ok g), g, []. intros tr. unfold read. simpl.
  now rewrite app_nil_r.
Qed.

Lemma framed_write : forall g0, framed (write g0).
Proof.
  intros g0 g. exists (Ok tt), g0, []. intros tr. unfold write. simpl.
  now rewrite app_nil_r.
Qed.

Lemma framed_bind :
  forall A B (m : M A) (k : A -> M B),
    framed m -> (forall a, framed (k a)) -> framed (bind m k).
Proof.
  intros A B m k Hm Hk g. destruct (Hm g) as (r & g1 & ev1 & H1).
  destruct r as [a|e].
  - destruct (Hk a g1) as (r2 & g2 & ev2 & H2).
    exists r2, g2, (ev1 ++ ev2)%list. intros tr. unfold bind.
    rewrite H1, H2. now rewrite app_assoc.
  - exists (Raise e), g1, ev1. intros tr. unfold bind. now rewrite H1.
Qed.

Lemma framed_try_when :
  forall A catch (m : M A) (h : exn -> M A),
    framed m -> (forall e, framed (h e)) -> framed (try_when catch m h).
Proof.
  intros A catch m h Hm Hh g. destruct (Hm g) as (r & g1 & ev1 & H1).
  destruct r as [a|e].
  - exists (Ok a), g1, ev1. intros tr. unfold try_when. now rewrite H1.
  - destruct (catch e) eqn:Hc.
    + destruct (Hh e g1) as (r2 & g2 & ev2 & H2).
      exists r2, g2, (ev1 ++ ev2)%list. intros tr. unfold try_when.
      rewrite H1, Hc, H2. now rewrite app_assoc.
    + exists (Raise e), g1, ev1. intros tr. unfold try_when.
      now rewrite H1, Hc.
Qed.

Lemma framed_if :
  forall A (b : bool) (m1 m2 : M A),
    framed m1 -> framed m2 -> framed (if b then m1 else m2).
Proof. intros A b m1 m2 H1 H2. destruct b; assumption. Qed.

Ltac frame_step := first
  [ apply framed_ret | apply framed_lift | apply framed_emit
  | apply framed_read | apply framed_write | assumption
  | apply framed_bind | apply framed_try_when | apply framed_if ].

Ltac frame := repeat (intros; frame_step).

Section Framing.

Variable E : env.

Lemma framed_call_chat : forall ms t n, framed (call_chat E ms t n).
Proof. intros. unfold call_chat. frame. Qed.

Lemma framed_call_count_tokens : forall s, framed (call_count_tokens E s).
Proof. intros. unfold call_count_tokens. frame. Qed.

Lemma framed_set_final_response : forall s, framed (set_final_response s).
Proof. intros. unfold set_final_response. frame. Qed.

Lemma framed_set_final_response_token :
  forall n, framed (set_final_response_token n).
Proof. intros. unfold set_final_response_token. frame. Qed.

Lemma framed_set_planner_response : forall v, framed (set_planner_response v).
Proof. intros. unfold set_planner_response. frame. Qed.

Ltac frame_calls := repeat (intros; first
  [ apply framed_call_chat | apply framed_call_count_tokens
  | apply framed_set_final_response | apply framed_set_final_response_token
  | apply framed_set_planner_response | frame_step ]).

Lemma framed_news_iteration : forall item, framed (news_iteration E item).
Proof. intros. unfold news_iteration. frame_calls. Qed.

Lemma framed_news_loop : forall items, framed (news_loop E items).
Proof.
  induction items as [|item rest IH]; simpl.
  - apply framed_ret.
  - apply framed_bind; [apply framed_news_iteration|].
    intros go. apply framed_if; [exact IH | apply framed_ret].
Qed.

Lemma framed_stock_branch : forall plan, framed (stock_branch E plan).
Proof. intros. unfold stock_branch. frame_calls. Qed.

Lemma framed_news_branch : forall req, framed (news_branch E req).
Proof.
  intros. unfold news_branch.
  repeat (intros; first [ apply framed_news_loop | progress frame_calls ]).
Qed.

Lemma framed_general_branch : forall req, framed (general_branch E req).
Proof. intros. unfold general_branch. frame_calls. Qed.

Lemma framed_executor : forall req plan, framed (executor E req plan).
Proof.
  intros. unfold executor.
  repeat (intros; first
    [ apply framed_stock_branch | apply framed_news_branch
    | apply framed_general_branch | frame_step ]).
Qed.

Lemma framed_planning :
  forall produce, framed produce -> framed (planning E produce).
Proof. intros produce H. unfold planning. frame_calls. Qed.

Lemma framed_planner_call : forall req, framed (planner_call E req).
Proof. intros. unfold planner_call. frame_calls. Qed.

End Framing.

Lemma reset_globals_spec :
  forall g tr, reset_globals (mkState g tr) = (Ok tt, mkState fresh_globals tr).
Proof. reflexivity. Qed.

(** C6. Repeated sequential runs are deterministic: with the same
    environment (planner output, completions, token counts, provider
    responses) the result of [process_request] and the module state it
    leaves do not depend on the module-level accumulators nor on the calls
    of earlier runs; in particular a second run right after a first one
    gives the same [ChatResponse]. *)
Theorem process_request_deterministic :
  forall (E : env) (req : ChatRequest),
    (forall g1 g2 tr1 tr2,
        fst (process_request E req (mkState g1 tr1))
        = fst (process_request E req (mkState g2 tr2))
        /\ glob (snd (process_request E req (mkState g1 tr1)))
           = glob (snd (process_request E req (mkState g2 tr2))))
    /\ (forall st,
          fst (process_request E req (snd (process_request E req st)))
          = fst (process_request E req st)).
Proof.
  intros E req.
  assert (H : forall g1 g2 tr1 tr2,
             fst (process_request E req (mkState g1 tr1))
             = fst (process_request E req (mkState g2 tr2))
             /\ glob (snd (process_request E req (mkState g1 tr1)))
                = glob (snd (process_request E req (mkState g2 tr2)))).
  { intros g1 g2 tr1 tr2. unfold process_request, pipeline.
    unfold bind at 1 3 5 7. rewrite !reset_globals_spec.
    assert (F : framed (bind (planning E (planner_call E req))
                             (fun plan => executor E req plan))).
    { apply framed_bind.
      - apply framed_planning, framed_planner_call.
      - intros plan. apply framed_executor. }
    destruct (F fresh_globals) as (r & g' & ev & Hrun).
    rewrite !Hrun. split; reflexivity. }
  split; [exact H|].
  intros [g tr].
  destruct (process_request E req (mkState g tr)) as [r [g' tr']] eqn:Hrun.
  simpl. destruct (H g' g tr' tr) as [Hr _]. rewrite Hr, Hrun. reflexivity.
Qed.

(** ** Facts about [strip] *)

Section StripFacts.

Lemma lstrip_idem : forall s, lstrip (lstrip s) = lstrip s.
Proof.
  induction s as [|c r IH]; [reflexivity|].
  cbn [lstrip]. destruct (is_space c) eqn:Hc; [exact IH|].
  cbn [lstrip]. now rewrite Hc.
Qed.

Lemma append_empty_r : forall s : string, s ++ "" = s.
Proof. induction s as [|c r IH]; cbn; [reflexivity|]. now rewrite IH. Qed.

Lemma rev_string_involutive : forall s, rev_string (rev_string s) = s.
Proof.
  intros s. unfold rev_string.
  rewrite list_ascii_of_string_of_list_ascii, rev_involutive.
  apply string_of_list_ascii_of_string.
Qed.

Lemma list_ascii_app :
  forall a b,
    list_ascii_of_string (a ++ b)
    = (list_ascii_of_string a ++ list_ascii_of_string b)%list.
Proof.
  induction a as [|c r IH]; intros b; cbn; [reflexivity|]. now rewrite IH.
Qed.

Lemma string_of_list_app :
  forall a b,
    string_of_list_ascii (a ++ b)%list
    = string_of_list_ascii a ++ string_of_list_ascii b.
Proof.
  induction a as [|c r IH]; intros b; cbn; [reflexivity|]. now rewrite IH.
Qed.

Lemma rev_string_app :
  forall a b, rev_string (a ++ b) = rev_string b ++ rev_string a.
Proof.
  intros a b. unfold rev_string.
  now rewrite list_ascii_app, rev_app_distr, string_of_list_app.
Qed.

(** [lstrip] removes a prefix. *)
Lemma lstrip_suffix : forall s, exists w, s = w ++ lstrip s.
Proof.
  induction s as [|c r [w Hw]]; [exists ""; reflexivity|].
  cbn [lstrip]. destruct (is_space c).
  - exists (String c w). cbn. now rewrite <- Hw.
  - exists "". reflexivity.
Qed.

(** [rstrip] removes a suffix. *)
Lemma rstrip_prefix : forall s, exists w, s = rstrip s ++ w.
Proof.
  intros s. unfold rstrip.
  destruct (lstrip_suffix (rev_string s)) as [w Hw].
  exists (rev_string w).
  rewrite <- rev_string_app, <- Hw. symmetry. apply rev_string_involutive.
Qed.

Lemma rstrip_idem : forall s, rstrip (rstrip s) = rstrip s.
Proof.
  intros s. unfold rstrip. now rewrite rev_string_involutive, lstrip_idem.
Qed.

Lemma lstrip_head :
  forall s, lstrip s = "" \/ exists c r, lstrip s = String c r /\ is_space c = false.
Proof.
  induction s as [|c r IH]; [left; reflexivity|].
  cbn [lstrip]. destruct (is_space c) eqn:Hc; [exact IH|].
  right. exists c, r. auto.
Qed.

Lemma lstrip_rstrip_lstrip :
  forall s, lstrip (rstrip (lstrip s)) = rstrip (lstrip s).
Proof.
  intros s. destruct (rstrip_prefix (lstrip s)) as [w Hw].
  destruct (lstrip_head s) as [H|(c & r & H & Hc)].
  - rewrite H. reflexivity.
  - rewrite H in *. destruct (rstrip (String c r)) as [|c' r'] eqn:Hr.
    + reflexivity.
    + cbn in Hw. injection Hw as Hcc _. subst c'.
      cbn [lstrip]. now rewrite Hc.
Qed.

Lemma strip_idem : forall s, strip (strip s) = strip s.
Proof.
  intros s. unfold strip. now rewrite lstrip_rstrip_lstrip, rstrip_idem.
Qed.

Lemma strip_not_blank : forall s, strip s <> "" -> strip (strip s) <> "".
Proof. intros s H. now rewrite strip_idem. Qed.

End StripFacts.

(** ** More on GeminiService *)

Section GeminiFacts.

Variable gen : gen_request -> result dyn.

Lemma probe_text_not_blank :
  forall resp s, probe_text resp = Some s -> strip s <> "".
Proof.
  intros resp s. unfold probe_text.
  destruct (getattr resp "text") as [[| | t | | |]|e]; try discriminate.
  destruct (String.eqb (strip t) "") eqn:Hb; [discriminate|].
  intros H. injection H as <-. now apply String.eqb_neq.
Qed.

Lemma candidate_text_not_blank :
  forall first t, candidate_text first = Ok (Some t) -> strip t <> "".
Proof.
  intros first t. unfold candidate_text.
  destruct (getattr first "content") as [content|e]; cbn [rbind];
    [|discriminate].
  destruct (getattr content "parts") as [parts|e]; cbn [rbind];
    [|discriminate].
  destruct (dyn_truthy parts); [|discriminate].
  destruct (dyn_iterate parts) as [ps|e]; cbn [rbind]; [|discriminate].
  destruct (parts_text ps) as [out|e]; cbn [rbind]; [|discriminate].
  destruct (String.eqb (strip (String.concat "" out)) "") eqn:Hb;
    [discriminate|].
  intros H. injection H as <-.
  apply strip_not_blank. now apply String.eqb_neq.
Qed.

Lemma SAFETY_MSG_not_blank : strip SAFETY_MSG <> "".
Proof. vm_compute. discriminate. Qed.

Lemma probe_candidates_not_blank :
  forall resp t, probe_candidates resp = Ok (Some t) -> strip t <> "".
Proof.
  intros resp t. unfold probe_candidates.
  destruct (getattr resp "candidates") as [cand|e]; cbn [rbind];
    [|discriminate].
  destruct (dyn_truthy cand); [|discriminate].
  destruct (dyn_index0 cand) as [first|e]; cbn [rbind try_except];
    [|discriminate].
  destruct (getattr_or first "finish_reason" "finishReason") as [fr|e];
    cbn [rbind try_except]; [|discriminate].
  destruct (candidate_text first) as [[t'|]|e] eqn:Hc;
    cbn [rbind try_except]; [| |discriminate].
  - intros H. injection H as <-. exact (candidate_text_not_blank _ _ Hc).
  - destruct (getattr_or first "safety_ratings" "safetyRatings") as [sf|e];
      cbn [rbind try_except]; [|discriminate].
    match goal with |- context [if ?b then _ else _] => destruct b end;
      cbn [try_except]; [|discriminate].
    intros H. injection H as <-. exact SAFETY_MSG_not_blank.
Qed.

(** No return path of [chat] gives a blank string. *)
Lemma chat_result_not_blank :
  forall (self : GeminiService) (messages : list message) (temp : Q)
         (max_tokens : Z),
    exists s, chat gen self messages temp max_tokens = Ok s /\ strip s <> "".
Proof.
  intros self messages temp max_tokens. unfold chat.
  destruct (client_ready self); cbn [negb].
  2:{ eexists. split; [reflexivity|]. vm_compute. discriminate. }
  destruct (gen (build_request messages temp max_tokens)) as [resp|e];
    cbn [rbind try_except].
  2:{ eexists. split; [reflexivity|]. vm_compute. discriminate. }
  destruct (probe_text resp) as [s|] eqn:Ht; cbn [try_except].
  { exists s. split; [reflexivity|]. exact (probe_text_not_blank _ _ Ht). }
  destruct (probe_candidates resp) as [[t|]|e] eqn:Hc; cbn [rbind try_except].
  - exists t. split; [reflexivity|]. exact (probe_candidates_not_blank _ _ Hc).
  - destruct (probe_prompt_feedback_cases resp) as [H|H]; rewrite H;
      cbn [try_except]; eexists; (split; [reflexivity|]);
      vm_compute; discriminate.
  - eexists. split; [reflexivity|]. vm_compute. discriminate.
Qed.

(** X1. Whatever the backend answers, the string [chat] returns is never
    empty nor made of blanks only. *)
Theorem chat_never_blank :
  forall (self : GeminiService) (messages : list message) (temp : Q)
         (max_tokens : Z),
    exists s, chat gen self messages temp max_tokens = Ok s /\ strip s <> "".
Proof. exact chat_result_not_blank. Qed.

Lemma filter_filter_implied :
  forall A (p q : A -> bool) l,
    (forall x, p x = true -> q x = true) ->
    filter p (filter q l) = filter p l.
Proof.
  intros A p q l H. induction l as [|x r IH]; [reflexivity|].
  cbn [filter]. destruct (q x) eqn:Hq.
  - cbn [filter]. destruct (p x); now rewrite IH.
  - destruct (p x) eqn:Hp; [|exact IH].
    rewrite (H x Hp) in Hq. discriminate.
Qed.

(** X2. Only the messages whose role is [system] or [user] count: taking
    the others out of the list (an [assistant] turn, say) changes neither
    the request sent to the backend nor the answer of [chat]. *)
Theorem chat_ignores_other_roles :
  forall (self : GeminiService) (messages : list message) (temp : Q)
         (max_tokens : Z),
    build_request (filter kept_role messages) temp max_tokens
    = build_request messages temp max_tokens
    /\ chat gen self (filter kept_role messages) temp max_tokens
       = chat gen self messages temp max_tokens.
Proof.
  intros self messages temp max_tokens.
  assert (H : build_request (filter kept_role messages) temp max_tokens
              = build_request messages temp max_tokens).
  { unfold build_request, system_parts, user_messages.
    rewrite !filter_filter_implied; [reflexivity| |];
      intros m Hm; unfold kept_role; rewrite Hm;
      [apply orb_true_r | reflexivity]. }
  split; [exact H|]. unfold chat. now rewrite H.
Qed.

(** X6. When the [text] accessor of the reply gives a string that is not
    blank, [chat] returns that string as it is (not stripped), whatever
    the candidates and the prompt feedback of the reply say. *)
Theorem chat_returns_reply_text :
  forall (self : GeminiService) (messages : list message) (temp : Q)
         (max_tokens : Z) (resp : dyn) (s : string),
    client_ready self = true ->
    gen (build_request messages temp max_tokens) = Ok resp ->
    getattr resp "text" = Ok (DStr s) ->
    strip s <> "" ->
    chat gen self messages temp max_tokens = Ok s.
Proof.
  intros self messages temp max_tokens resp s Hr Hg Ht Hs.
  unfold chat. rewrite Hr, Hg. cbn [negb rbind]. unfold probe_text.
  rewrite Ht. apply String.eqb_neq in Hs. rewrite Hs. reflexivity.
Qed.

End GeminiFacts.

(** ** The news-digest loop *)

Section NewsLoop.

Variable E : env.

Lemma gemini_chat_reply :
  forall ms t n, gemini_chat E ms t n = Ok (reply E ms t n).
Proof.
  intros ms t n. unfold reply, gemini_chat.
  destruct (chat_total (generate_content E) (_gemini E) ms t n) as [s Hs].
  now rewrite Hs.
Qed.

Lemma or0_id : forall x, or0 x = x.
Proof. intros x. unfold or0. destruct (Z.eqb_spec x 0); congruence. Qed.

(** What one pass of the loop body does. *)
Lemma news_iteration_run :
  forall item g tr,
    let r := summary E item in
    news_iteration E item (mkState g tr)
    = if final_response_token g + summary_tokens E item >? MAX_TOKENS
      then (Ok false,
            mkState g (tr ++ [CallChat (news_item_messages E item) (1 # 2) 1024;
                              CallCountTokens r]))
      else
        let txt := append_summary (final_response g) r in
        (Ok true,
         mkState (mkGlobals (planner_response g) txt (gemini_count_tokens E txt))
                 (tr ++ [CallChat (news_item_messages E item) (1 # 2) 1024;
                         CallCountTokens r; CallCountTokens r;
                         CallCountTokens txt])).
Proof.
  intros item g tr r. unfold news_iteration, call_chat, call_count_tokens.
  unfold bind, emit, lift, ret, read, set_final_response,
    set_final_response_token, write, bind, read. cbn [glob trace].
  rewrite gemini_chat_reply. fold (summary E item). fold r.
  cbn [glob trace final_response_token final_response planner_response].
  rewrite or0_id. unfold summary_tokens. fold r.
  destruct (final_response_token g + gemini_count_tokens E r >? MAX_TOKENS).
  - now rewrite <- !app_assoc.
  - cbn [glob trace final_response_token final_response planner_response].
    now rewrite <- !app_assoc.
Qed.

Lemma chat_calls_app :
  forall a b, chat_calls (a ++ b) = (chat_calls a ++ chat_calls b)%list.
Proof. intros a b. unfold chat_calls. apply flat_map_app. Qed.

Lemma summary_not_empty : forall item, summary E item <> "".
Proof.
  intros item. unfold summary, reply, gemini_chat.
  destruct (chat_result_not_blank (generate_content E) (_gemini E)
              (news_item_messages E item) (1 # 2) 1024) as (s & Hs & Hb).
  rewrite Hs. intros ->. now apply Hb.
Qed.

Lemma append_assoc :
  forall a b c : string, (a ++ b) ++ c = a ++ (b ++ c).
Proof. induction a as [|x r IH]; intros b c; cbn; [reflexivity|]. now rewrite IH. Qed.

Lemma digest_nil : forall t, digest t [] = t.
Proof.
  intros t. unfold digest. destruct (String.eqb t "") eqn:Ht; [|reflexivity].
  apply String.eqb_eq in Ht. now subst t.
Qed.

(** Appending a summary that is not empty to a text, as line 99 does, is
    adding a line to the digest. *)
Lemma digest_shift :
  forall t s l, s <> "" ->
    digest t (s :: l) = digest (append_summary t s) l.
Proof.
  intros t s l Hs. unfold digest, append_summary.
  destruct (String.eqb t "") eqn:Ht; cbn [negb].
  - apply String.eqb_neq in Hs. rewrite Hs. reflexivity.
  - assert (Hne : String.eqb (t ++ nl ++ s) "" = false).
    { destruct t; [discriminate Ht | reflexivity]. }
    rewrite Hne. cbn [app join].
    destruct l as [|x r]; [reflexivity|].
    now rewrite !append_assoc.
Qed.

Lemma acc_text_0 : forall text0 items, acc_text E text0 items 0 = text0.
Proof. intros text0 items. unfold acc_text. cbn [firstn map]. apply digest_nil. Qed.

Lemma acc_text_shift :
  forall text0 item rest k,
    acc_text E text0 (item :: rest) (S k)
    = acc_text E (append_summary text0 (summary E item)) rest k.
Proof.
  intros text0 item rest k. unfold acc_text. cbn [firstn map].
  apply digest_shift, summary_not_empty.
Qed.

Lemma acc_tokens_shift :
  forall text0 tok0 item rest j,
    acc_tokens E text0 tok0 (item :: rest) (S j)
    = acc_tokens E (append_summary text0 (summary E item))
        (gemini_count_tokens E (append_summary text0 (summary E item))) rest j.
Proof.
  intros text0 tok0 item rest [|j]; cbn [acc_tokens]; rewrite acc_text_shift;
    [now rewrite acc_text_0 | reflexivity].
Qed.

Lemma news_loop_cons :
  forall item rest st,
    news_loop E (item :: rest) st
    = match news_iteration E item st with
      | (Ok true, st') => news_loop E rest st'
      | (Ok false, st') => (Ok tt, st')
      | (Raise e, st') => (Raise e, st')
      end.
Proof.
  intros item rest st. cbn [news_loop]. unfold bind.
  destruct (news_iteration E item st) as [[[|]|e] st']; reflexivity.
Qed.

Lemma MAX_TOKENS_value : MAX_TOKENS = 1024.
Proof. reflexivity. Qed.

(** The loop appends a prefix of the items and stops on the first one over
    the budget. *)
Lemma news_loop_prefix :
  forall (items : list pyval) (g : globals) (tr : list event),
    exists k : nat,
      (k <= List.length items)%nat
      /\ fst (news_loop E items (mkState g tr)) = Ok tt
      /\ final_response (glob (snd (news_loop E items (mkState g tr))))
         = acc_text E (final_response g) items k
      /\ final_response_token (glob (snd (news_loop E items (mkState g tr))))
         = acc_tokens E (final_response g) (final_response_token g) items k
      /\ (forall i, (i < k)%nat ->
            acc_tokens E (final_response g) (final_response_token g) items i
            + summary_tokens E (nth i items PNone) <= MAX_TOKENS)
      /\ ((k < List.length items)%nat ->
            acc_tokens E (final_response g) (final_response_token g) items k
            + summary_tokens E (nth k items PNone) > MAX_TOKENS)
      /\ chat_calls (trace (snd (news_loop E items (mkState g tr))))
         = (chat_calls tr
            ++ map (news_item_messages E) (firstn (S k) items))%list
      /\ MAX_TOKENS = 1024.
Proof.
  induction items as [|item rest IH]; intros g tr.
  - exists 0%nat. cbn [news_loop ret fst snd glob trace List.length].
    repeat split; try reflexivity.
    + now rewrite acc_text_0.
    + intros i Hi. lia.
    + intros Hk. inversion Hk.
    + cbn. now rewrite app_nil_r.
  - rewrite news_loop_cons, news_iteration_run. cbv zeta.
    destruct (final_response_token g + summary_tokens E item >? MAX_TOKENS)
      eqn:Hguard.
    + exists 0%nat. cbn [ret fst snd glob trace List.length].
      repeat split; try reflexivity.
      * lia.
      * now rewrite acc_text_0.
      * intros i Hi. lia.
      * intros _. cbn [acc_tokens nth]. apply Z.gtb_lt in Hguard. lia.
      * rewrite chat_calls_app. reflexivity.
    + set (txt := append_summary (final_response g) (summary E item)).
      set (g1 := mkGlobals (planner_response g) txt (gemini_count_tokens E txt)).
      match goal with
      | |- context [news_loop E rest (mkState g1 ?t)] => set (tr1 := t)
      end.
      destruct (IH g1 tr1) as (k & Hk & Hres & Htxt & Htok & Hpass & Hstop & Hcalls & _).
      exists (S k). cbn [List.length].
      split; [lia|].
      split; [exact Hres|].
      split; [rewrite Htxt; subst g1 txt; cbn [final_response];
              now rewrite acc_text_shift|].
      split; [rewrite Htok; subst g1 txt; cbn [final_response final_response_token];
              now rewrite acc_tokens_shift|].
      split.
      { intros [|i] Hi.
        - cbn [acc_tokens nth].
          assert (Hle : (final_response_token g + summary_tokens E item
                         >? MAX_TOKENS) = false) by exact Hguard.
          rewrite Z.gtb_ltb in Hle. apply Z.ltb_ge in Hle. exact Hle.
        - rewrite acc_tokens_shift. cbn [nth]. apply (Hpass i). lia. }
      split.
      { intros Hlt. rewrite acc_tokens_shift. cbn [nth]. apply Hstop. lia. }
      split; [|reflexivity].
      rewrite Hcalls. subst tr1. rewrite chat_calls_app.
      cbn [firstn map]. rewrite <- app_assoc. reflexivity.
Qed.

(** C1. The loop visits the items in the order of the list.  There is a
    number [k] of appended items such that the accumulated text is made of
    the summaries of the first [k] items, in order, one per line (after
    the text the loop started with, if any; the code starts it empty);
    each of these passed the budget test (the accumulated count plus its
    own count is at most [MAX_TOKENS], which is 1024); when [k] is smaller
    than the number of items, item [k] failed the test and the loop
    stopped on it: the completion calls of the loop are exactly those of
    the first [k + 1] items, so no later item is summarized or appended,
    whatever its count. *)
Theorem news_loop_budget :
  forall (items : list pyval) (g : globals) (tr : list event),
    exists k : nat,
      (k <= List.length items)%nat
      /\ fst (news_loop E items (mkState g tr)) = Ok tt
      /\ final_response (glob (snd (news_loop E items (mkState g tr))))
         = acc_text E (final_response g) items k
      /\ final_response_token (glob (snd (news_loop E items (mkState g tr))))
         = acc_tokens E (final_response g) (final_response_token g) items k
      /\ (forall i, (i < k)%nat ->
            acc_tokens E (final_response g) (final_response_token g) items i
            + summary_tokens E (nth i items PNone) <= MAX_TOKENS)
      /\ ((k < List.length items)%nat ->
            acc_tokens E (final_response g) (final_response_token g) items k
            + summary_tokens E (nth k items PNone) > MAX_TOKENS)
      /\ chat_calls (trace (snd (news_loop E items (mkState g tr))))
         = (chat_calls tr
            ++ map (news_item_messages E) (firstn (S k) items))%list
      /\ MAX_TOKENS = 1024
      /\ (final_response g = "" ->
          final_response (glob (snd (news_loop E items (mkState g tr))))
          = join nl (map (summary E) (firstn k items))).
Proof.
  intros items g tr.
  destruct (news_loop_prefix items g tr)
    as (k & Hk & Hres & Htxt & Htok & Hpass & Hstop & Hcalls & Hmax).
  exists k. do 8 (split; [assumption|]).
  intros H0. rewrite Htxt, H0. reflexivity.
Qed.

(** C9. After every pass of the loop body that appends, the accumulated
    text is the former text joined by a newline with the new summary, and
    the accumulated count is the measure [count_tokens] gives for that
    whole text; a pass that stops the loop changes neither.  Hence at the
    end of the loop, and after any number of items, the stored count is
    either the starting one (nothing appended) or the measure of the whole
    accumulated text. *)
Theorem accumulated_count_is_measured :
  (forall (item : pyval) (g : globals) (tr : list event),
      (fst (news_iteration E item (mkState g tr)) = Ok true
       /\ final_response (glob (snd (news_iteration E item (mkState g tr))))
          = append_summary (final_response g) (summary E item)
       /\ final_response_token
            (glob (snd (news_iteration E item (mkState g tr))))
          = gemini_count_tokens E
              (final_response
                 (glob (snd (news_iteration E item (mkState g tr))))))
      \/ (fst (news_iteration E item (mkState g tr)) = Ok false
          /\ glob (snd (news_iteration E item (mkState g tr))) = g))
  /\ (forall (items : list pyval) (g : globals) (tr : list event),
        glob (snd (news_loop E items (mkState g tr))) = g
        \/ final_response_token (glob (snd (news_loop E items (mkState g tr))))
           = gemini_count_tokens E
               (final_response
                  (glob (snd (news_loop E items (mkState g tr)))))).
Proof.
  split.
  - intros item g tr. rewrite news_iteration_run. cbv zeta.
    destruct (final_response_token g + summary_tokens E item >? MAX_TOKENS).
    + right. split; reflexivity.
    + left. repeat split; reflexivity.
  - induction items as [|item rest IH]; intros g tr.
    + left. reflexivity.
    + rewrite news_loop_cons, news_iteration_run. cbv zeta.
      destruct (final_response_token g + summary_tokens E item >? MAX_TOKENS).
      * left. reflexivity.
      * match goal with
        | |- context [news_loop E rest (mkState ?g1 ?t)] =>
            destruct (IH g1 t) as [H|H]
        end.
        -- right. rewrite H. reflexivity.
        -- right. exact H.
Qed.

Lemma sentinel_loop :
  forall items g tr,
    (forall s, gemini_count_tokens E s = -1) ->
    final_response_token g <= 1025 ->
    fst (news_loop E items (mkState g tr)) = Ok tt
    /\ final_response (glob (snd (news_loop E items (mkState g tr))))
       = digest (final_response g) (map (summary E) items)
    /\ final_response_token (glob (snd (news_loop E items (mkState g tr))))
       = match items with [] => final_response_token g | _ => -1 end
    /\ chat_calls (trace (snd (news_loop E items (mkState g tr))))
       = (chat_calls tr ++ map (news_item_messages E) items)%list.
Proof.
  induction items as [|item rest IH]; intros g tr Hc Hg.
  - cbn [news_loop ret fst snd glob trace map]. rewrite digest_nil.
    cbn. rewrite app_nil_r. repeat split; reflexivity.
  - rewrite news_loop_cons, news_iteration_run. cbv zeta.
    unfold summary_tokens. rewrite !Hc.
    assert (Hguard : (final_response_token g + -1 >? MAX_TOKENS) = false).
    { rewrite Z.gtb_ltb. apply Z.ltb_ge. unfold MAX_TOKENS. lia. }
    rewrite Hguard.
    match goal with
    | |- context [news_loop E rest (mkState ?g1 ?t)] =>
        destruct (IH g1 t Hc) as (H1 & H2 & H3 & H4); [cbn; lia|]
    end.
    split; [exact H1|].
    split; [rewrite H2; cbn [final_response map]; symmetry;
            apply digest_shift, summary_not_empty|].
    split.
    + rewrite H3. destruct rest; reflexivity.
    + rewrite H4, chat_calls_app. cbn [map]. rewrite <- app_assoc. reflexivity.
Qed.

(** C10. When [count_tokens] answers the sentinel [-1] on every call, the
    loop started as in lines 84-85 (empty text, count 0) never takes its
    early exit: it ends normally, every item is sent to the completion
    backend and every candidate summary is appended, in order (the text
    at the end is the summaries of all the items, one per line), so the
    ceiling of [MAX_TOKENS] is not enforced. *)
Theorem sentinel_disables_budget :
  forall (items : list pyval) (pr : pyval) (tr : list event),
    (forall s, gemini_count_tokens E s = -1) ->
    fst (news_loop E items (mkState (mkGlobals pr "" 0) tr)) = Ok tt
    /\ final_response
         (glob (snd (news_loop E items (mkState (mkGlobals pr "" 0) tr))))
       = join nl (map (summary E) items)
    /\ chat_calls
         (trace (snd (news_loop E items (mkState (mkGlobals pr "" 0) tr))))
       = (chat_calls tr ++ map (news_item_messages E) items)%list
    /\ (forall acc c, (acc = 0 \/ acc = -1) -> c = -1 ->
          (or0 acc + c >? MAX_TOKENS) = false).
Proof.
  intros items pr tr Hc.
  destruct (sentinel_loop items (mkGlobals pr "" 0) tr Hc) as (H1 & H2 & _ & H4).
  { cbn. lia. }
  split; [exact H1|]. split; [exact H2|]. split; [exact H4|].
  intros acc c [->| ->] ->; reflexivity.
Qed.

End NewsLoop.

(** ** The stock-data aggregator *)

Section Aggregator.

Variable E : env.

Lemma get_stock_analysis_data_total :
  forall ticker, exists v, get_stock_analysis_data E ticker = Ok v.
Proof.
  intros ticker. unfold get_stock_analysis_data.
  destruct (key_missing E); [eauto|].
  destruct (http_get E (quote_url E ticker)) as [q|e1];
    destruct (http_get E (overview_url E ticker)) as [o|e2];
    destruct (http_get E (stock_news_url E ticker)) as [n|e3];
    cbn [try_except]; eauto.
  destruct (consolidate q o n); cbn [try_except]; eauto.
Qed.

(** C3. If any one of the three fetches (quote, overview, news) raises,
    [get_stock_analysis_data] returns [None], never a dict with the other
    sections; and whatever happens the function returns: no exception
    reaches the orchestrator. *)
Theorem fan_out_abort :
  forall (ticker : pyval),
    (exists v, get_stock_analysis_data E ticker = Ok v)
    /\ (((exists e, http_get E (quote_url E ticker) = Raise e)
         \/ (exists e, http_get E (overview_url E ticker) = Raise e)
         \/ (exists e, http_get E (stock_news_url E ticker) = Raise e)) ->
        get_stock_analysis_data E ticker = Ok PNone).
Proof.
  intros ticker. split; [apply get_stock_analysis_data_total|].
  intros H. unfold get_stock_analysis_data.
  destruct (key_missing E); [reflexivity|].
  destruct H as [[e H]|[[e H]|[e H]]]; rewrite H.
  - reflexivity.
  - destruct (http_get E (quote_url E ticker)); reflexivity.
  - destruct (http_get E (quote_url E ticker));
      destruct (http_get E (overview_url E ticker)); reflexivity.
Qed.

Lemma add_quote_run :
  forall q d, quote_shape q = true ->
    exists v, add_quote q d
              = Ok (if (status_code q =? 200) && has_key "Global Quote" q
                    then dict_set "quote" v d else d).
Proof.
  intros q d. unfold quote_shape, add_quote, has_key, body_dict.
  destruct (status_code q =? 200); cbn [negb orb andb rbind];
    [|intros _; exists PNone; reflexivity].
  destruct (json q) as [[| | | | | |b]|e]; try discriminate.
  cbn [rbind contains]. unfold dict_has.
  destruct (dict_lookup "Global Quote" b) as [v|] eqn:Hl;
    [|intros _; exists PNone; reflexivity].
  destruct v; try discriminate. intros _.
  cbn [rbind get].
  replace (dict_get "Global Quote" b (PDict [])) with (PDict d0)
    by (unfold dict_get; now rewrite Hl).
  cbn [rbind get]. eexists. reflexivity.
Qed.

Lemma add_overview_run :
  forall o d, overview_shape o = true ->
    exists v, add_overview o d
              = Ok (if status_code o =? 200
                    then dict_set "overview" v d else d).
Proof.
  intros o d. unfold overview_shape, add_overview, body_dict.
  destruct (status_code o =? 200); cbn [negb orb];
    [|intros _; exists PNone; reflexivity].
  destruct (json o) as [[| | | | | |b]|e]; try discriminate.
  intros _. cbn [rbind get]. eexists. reflexivity.
Qed.

Lemma mapM_stock_news_item :
  forall l, forallb is_dict l = true ->
    exists l', mapM stock_news_item l = Ok l'.
Proof.
  induction l as [|x r IH]; intros H.
  - exists []. reflexivity.
  - cbn [forallb] in H. apply andb_prop in H. destruct H as [Hx Hr].
    destruct (IH Hr) as [l' Hl']. destruct x; try discriminate.
    cbn [mapM stock_news_item get rbind]. rewrite Hl'. cbn [rbind].
    eexists. reflexivity.
Qed.

Lemma add_news_run :
  forall n d, news_shape n = true ->
    exists v, add_news n d
              = Ok (if (status_code n =? 200) && has_key "feed" n
                    then dict_set "news" v d else d).
Proof.
  intros n d. unfold news_shape, add_news, has_key, body_dict.
  destruct (status_code n =? 200); cbn [negb orb andb rbind];
    [|intros _; exists PNone; reflexivity].
  destruct (json n) as [[| | | | | |b]|e]; try discriminate.
  cbn [rbind contains]. unfold dict_has.
  destruct (dict_lookup "feed" b) as [v|] eqn:Hl;
    [|intros _; exists PNone; reflexivity].
  destruct v as [| | | | |l|]; try discriminate. intros Hs.
  cbn [rbind get].
  replace (dict_get "feed" b (PList [])) with (PList l)
    by (unfold dict_get; now rewrite Hl).
  cbn [iterate_slice rbind].
  destruct (mapM_stock_news_item _ Hs) as [l' Hl']. rewrite Hl'.
  cbn [rbind]. eexists. reflexivity.
Qed.

(** The sections of the dict built from well-shaped responses. *)
Lemma consolidate_sections :
  forall q o n,
    quote_shape q = true -> overview_shape o = true -> news_shape n = true ->
    exists d,
      consolidate q o n = Ok (PDict d)
      /\ dict_has "quote" d
         = (status_code q =? 200) && has_key "Global Quote" q
      /\ dict_has "overview" d = (status_code o =? 200)
      /\ dict_has "news" d = (status_code n =? 200) && has_key "feed" n
      /\ truthy (PDict d)
         = dict_has "quote" d || dict_has "overview" d || dict_has "news" d.
Proof.
  intros q o n Hq Ho Hn. unfold consolidate.
  destruct (add_quote_run q [] Hq) as [vq Eq]. rewrite Eq. cbn [rbind].
  match goal with |- context [add_overview o ?d] =>
    destruct (add_overview_run o d Ho) as [vo Eo]; rewrite Eo end.
  cbn [rbind].
  match goal with |- context [add_news n ?d] =>
    destruct (add_news_run n d Hn) as [vn En]; rewrite En end.
  cbn [rbind].
  eexists. split; [reflexivity|].
  destruct ((status_code q =? 200) && has_key "Global Quote" q);
    destruct (status_code o =? 200);
    destruct ((status_code n =? 200) && has_key "feed" n);
    repeat split; reflexivity.
Qed.

End Aggregator.

(** ** The orchestrator on a stock_analysis plan *)

Section StockBranch.

Variable E : env.

Lemma executor_stock :
  forall req d st,
    dict_lookup "intent" d = Some (PStr "stock_analysis") ->
    executor E req (PDict d) st = stock_branch E (PDict d) st.
Proof.
  intros req d st H. unfold executor, bind, lift. cbn [get].
  unfold dict_get. rewrite H. reflexivity.
Qed.

(** The branch once the first entity is an object of type [ticker]. *)
Lemma stock_branch_ticker_run :
  forall d fd rest g tr,
    dict_get "entities" d (PList []) = PList (PDict fd :: rest) ->
    eq_str (dict_get "type" fd PNone) "ticker" = true ->
    let ticker := dict_get "value" fd PNone in
    stock_branch E (PDict d) (mkState g tr)
    = match get_stock_analysis_data E ticker with
      | Ok sd =>
          if negb (truthy sd)
          then (Ok (mkChatResponse (no_stock_data_msg (py_str E ticker)) "gemini"),
                mkState g (tr ++ [CallStockData ticker]))
          else
            let r := reply E (stock_synth_messages E ticker sd) (1 # 2) 1024 in
            (Ok (mkChatResponse r "gemini"),
             mkState (mkGlobals (planner_response g) r (final_response_token g))
                     (tr ++ [CallStockData ticker;
                             CallChat (stock_synth_messages E ticker sd)
                                      (1 # 2) 1024]))
      | Raise e => (Raise e, mkState g (tr ++ [CallStockData ticker]))
      end.
Proof.
  intros d fd rest g tr He Ht ticker. unfold stock_branch.
  unfold bind, lift, ret, emit. cbn [get]. rewrite He.
  cbn [truthy negb index0 get]. rewrite Ht. cbn [negb glob trace].
  fold ticker.
  destruct (get_stock_analysis_data E ticker) as [sd|e]; [|reflexivity].
  destruct (truthy sd); cbn [negb]; [|reflexivity].
  unfold call_chat, set_final_response, bind, emit, lift, read, write, ret.
  cbn [glob trace]. fold (stock_synth_messages E ticker sd).
  rewrite gemini_chat_reply. cbn [glob trace]. cbv zeta.
  rewrite <- app_assoc. reflexivity.
Qed.

(** The branch when the gate of line 59 closes. *)
Lemma stock_branch_no_ticker_run :
  forall d st,
    (truthy (dict_get "entities" d (PList [])) = false
     \/ exists fd rest,
          dict_get "entities" d (PList []) = PList (PDict fd :: rest)
          /\ eq_str (dict_get "type" fd PNone) "ticker" = false) ->
    stock_branch E (PDict d) st
    = (Ok (mkChatResponse NEED_TICKER_MSG "gemini"), st).
Proof.
  intros d st H. unfold stock_branch, bind, lift, ret. cbn [get].
  destruct H as [H|(fd & rest & H1 & H2)].
  - rewrite H. reflexivity.
  - rewrite H1. cbn [truthy negb index0 get]. rewrite H2. reflexivity.
Qed.

Lemma stock_data_calls_app :
  forall a b,
    stock_data_calls (a ++ b) = (stock_data_calls a ++ stock_data_calls b)%list.
Proof. intros a b. unfold stock_data_calls. apply flat_map_app. Qed.

(** C4, as the code has it.  When the three fetches return responses with
    provider-shaped bodies, the aggregator returns a dict; it has the
    [quote] section exactly when the quote response has status 200 and
    holds [Global Quote], the [news] section exactly when the news
    response has status 200 and holds [feed], and the [overview] section
    exactly when the overview response has status 200 (no key is looked
    for).  A dict with at least one section goes to the synthesizer, whose
    completion is the answer; a dict with no section is answered like a
    failed retrieval. *)
Theorem stock_sections :
  forall (ticker : pyval) (q o n : http_response),
    key_missing E = false ->
    http_get E (quote_url E ticker) = Ok q ->
    http_get E (overview_url E ticker) = Ok o ->
    http_get E (stock_news_url E ticker) = Ok n ->
    quote_shape q = true -> overview_shape o = true -> news_shape n = true ->
    exists d,
      get_stock_analysis_data E ticker = Ok (PDict d)
      /\ dict_has "quote" d
         = (status_code q =? 200) && has_key "Global Quote" q
      /\ dict_has "overview" d = (status_code o =? 200)
      /\ dict_has "news" d = (status_code n =? 200) && has_key "feed" n
      /\ forall req st,
          fst (executor E req (ticker_plan ticker) st)
          = Ok (mkChatResponse
                  (if dict_has "quote" d || dict_has "overview" d
                      || dict_has "news" d
                   then reply E (stock_synth_messages E ticker (PDict d))
                              (1 # 2) 1024
                   else no_stock_data_msg (py_str E ticker))
                  "gemini").
Proof.
  intros ticker q o n Hk Gq Go Gn Sq So Sn.
  destruct (consolidate_sections q o n Sq So Sn)
    as (d & Hc & Hq & Ho & Hn & Ht).
  assert (Hdata : get_stock_analysis_data E ticker = Ok (PDict d)).
  { unfold get_stock_analysis_data. rewrite Hk, Gq, Go, Gn, Hc. reflexivity. }
  exists d. do 4 (split; [assumption|]).
  intros req [g tr]. unfold ticker_plan.
  rewrite executor_stock by reflexivity.
  rewrite (stock_branch_ticker_run _ [("type", PStr "ticker"); ("value", ticker)] [])
    by reflexivity.
  cbv zeta. change (dict_get "value" [("type", PStr "ticker"); ("value", ticker)] PNone)
    with ticker.
  rewrite Hdata, Ht.
  destruct (dict_has "quote" d || dict_has "overview" d || dict_has "news" d);
    reflexivity.
Qed.

(** C5, as the code has it.  On a stock_analysis plan: when the entity
    list is missing or empty, or its first entity is an object whose type
    is not [ticker], the orchestrator answers the fixed text and calls
    nothing; and the aggregator is called only after the gate, with the
    [value] of the first entity as it is ([None] when absent). *)
Theorem ticker_gate :
  forall (req : ChatRequest) (d : list (string * pyval)) (st : state),
    dict_lookup "intent" d = Some (PStr "stock_analysis") ->
    ((truthy (dict_get "entities" d (PList [])) = false
      \/ exists fd rest,
           dict_get "entities" d (PList []) = PList (PDict fd :: rest)
           /\ eq_str (dict_get "type" fd PNone) "ticker" = false) ->
     executor E req (PDict d) st
     = (Ok (mkChatResponse NEED_TICKER_MSG "gemini"), st))
    /\ (forall t,
          In t (stock_data_calls (trace (snd (executor E req (PDict d) st)))) ->
          In t (stock_data_calls (trace st))
          \/ exists fd rest,
               dict_get "entities" d (PList []) = PList (PDict fd :: rest)
               /\ eq_str (dict_get "type" fd PNone) "ticker" = true
               /\ t = dict_get "value" fd PNone).
Proof.
  intros req d st Hi. rewrite executor_stock by exact Hi. split.
  - apply stock_branch_no_ticker_run.
  - intros t.
    destruct (truthy (dict_get "entities" d (PList []))) eqn:Htr.
    2:{ rewrite stock_branch_no_ticker_run by (left; exact Htr). auto. }
    assert (Hstuck :
      forall e, index0 (dict_get "entities" d (PList [])) = Raise e ->
                stock_branch E (PDict d) st = (Raise e, st)).
    { intros e He. unfold stock_branch, bind, lift. cbn [get].
      rewrite Htr, He. reflexivity. }
    destruct (dict_get "entities" d (PList [])) as [|b|z|f|s|l|dd] eqn:He;
      try discriminate;
      try (rewrite (Hstuck TypeError) by reflexivity; now auto).
    + destruct s as [|c s]; [discriminate|].
      unfold stock_branch, bind, lift. cbn [get]. rewrite He.
      cbn - [stock_data_calls]. auto.
    + destruct l as [|x rest]; [discriminate|].
      destruct x as [| | | | | |fd];
        try (unfold stock_branch, bind, lift; cbn [get]; rewrite He;
             cbn - [stock_data_calls]; now auto).
      destruct (eq_str (dict_get "type" fd PNone) "ticker") eqn:Hty.
      * destruct st as [g tr].
        rewrite (stock_branch_ticker_run d fd rest g tr He Hty). cbv zeta.
        intros Hin.
        assert (Hcases :
          In t (stock_data_calls tr) \/ t = dict_get "value" fd PNone).
        { destruct (get_stock_analysis_data E (dict_get "value" fd PNone))
            as [sd|e]; [destruct (negb (truthy sd))|];
            cbn [snd trace] in Hin; rewrite stock_data_calls_app in Hin;
            apply in_app_or in Hin; destruct Hin as [Hin|Hin]; auto;
            cbn in Hin; destruct Hin as [Hin|[]]; auto. }
        destruct Hcases as [Hc|Hc]; [auto|].
        right. exists fd, rest. auto.
      * rewrite stock_branch_no_ticker_run; [auto|].
        right. rewrite He. exists fd, rest. auto.
    + destruct dd as [|kv dd]; [discriminate|].
      rewrite (Hstuck KeyError) by reflexivity. auto.
Qed.

End StockBranch.

(** ** Planning and the general branch *)

Section Planning.

Variable E : env.

Lemma general_branch_run :
  forall req g tr,
    general_branch E req (mkState g tr)
    = (Ok (mkChatResponse (reply E (general_messages req) (1 # 2) 512) "gemini"),
       mkState g (tr ++ [CallChat (general_messages req) (1 # 2) 512])).
Proof.
  intros req g tr. unfold general_branch, call_chat, bind, emit, lift, ret.
  cbn [glob trace]. fold (general_messages req).
  rewrite gemini_chat_reply. reflexivity.
Qed.

(** Lines 41-119 once the completion of the planner is the text [s]. *)
Lemma malformed_text_run :
  forall req s g tr,
    malformed_text E s ->
    exists g',
      bind (planning E (ret (PStr s))) (fun plan => executor E req plan)
           (mkState g tr)
      = (Ok (mkChatResponse (reply E (general_messages req) (1 # 2) 512) "gemini"),
         mkState g' (tr ++ [CallChat (general_messages req) (1 # 2) 512])).
Proof.
  intros req s g tr H.
  unfold planning, try_when, bind, ret, set_planner_response, read, write, lift.
  cbn [glob trace decode_plan py_strip rbind].
  destruct H as [(e & H & He)|(d & H & Hd)]; rewrite H.
  - unfold bind. cbv beta iota. rewrite He.
    unfold executor, bind, lift, fallback_plan.
    cbn [get dict_get dict_lookup String.eqb]. cbn.
    eexists. apply general_branch_run.
  - unfold executor, bind, lift. cbn [get]. unfold dict_get. rewrite Hd.
    cbn [eq_str]. eexists. apply general_branch_run.
Qed.

(** The fallback of lines 50-55 where it works.  When the completion of
    the planner is a text on which [json.loads] raises [JSONDecodeError]
    or [TypeError], or a text that decodes to an object without an
    [intent] key, the request is answered by the general_chat branch and
    nothing is raised; [process_request] then makes two completion calls,
    the planner's and the general one. *)
Theorem malformed_plan_falls_back :
  forall (req : ChatRequest),
    (forall s st,
        malformed_text E s ->
        fst (pipeline E req (ret (PStr s)) st)
        = Ok (mkChatResponse (reply E (general_messages req) (1 # 2) 512)
                             "gemini"))
    /\ (forall st,
          malformed_text E (reply E (planner_messages req) 0 1000) ->
          fst (process_request E req st)
          = Ok (mkChatResponse (reply E (general_messages req) (1 # 2) 512)
                               "gemini")
          /\ chat_calls (trace (snd (process_request E req st)))
             = (chat_calls (trace st)
                ++ [planner_messages req; general_messages req])%list).
Proof.
  intros req. split.
  - intros s [g tr] H. unfold pipeline. unfold bind at 1.
    rewrite reset_globals_spec.
    destruct (malformed_text_run req s fresh_globals tr H) as [g' Hrun].
    rewrite Hrun. reflexivity.
  - intros [g tr] H.
    set (out := reply E (planner_messages req) 0 1000) in *.
    set (tr1 := (tr ++ [CallChat (planner_messages req) 0 1000])%list).
    destruct (malformed_text_run req out fresh_globals tr1 H) as [g' Hrun].
    assert (Hsame :
      bind (planning E (planner_call E req)) (fun plan => executor E req plan)
           (mkState fresh_globals tr)
      = bind (planning E (ret (PStr out))) (fun plan => executor E req plan)
             (mkState fresh_globals tr1)).
    { unfold planning, planner_call, call_chat, try_when, bind, emit, lift, ret.
      cbn [glob trace]. rewrite gemini_chat_reply. reflexivity. }
    assert (Hp : process_request E req (mkState g tr)
                 = (Ok (mkChatResponse
                          (reply E (general_messages req) (1 # 2) 512) "gemini"),
                    mkState g'
                      (tr1 ++ [CallChat (general_messages req) (1 # 2) 512]))).
    { unfold process_request, pipeline. unfold bind at 1.
      rewrite reset_globals_spec, Hsame. exact Hrun. }
    rewrite Hp. cbn [fst snd trace]. split; [reflexivity|].
    subst tr1. rewrite !chat_calls_app. cbn. rewrite <- app_assoc. reflexivity.
Qed.

End Planning.

(** ** The data-source credential *)

Section Credential.

Variable E : env.

Lemma key_missing_with_http :
  forall h, key_missing (with_http E h) = key_missing E.
Proof. reflexivity. Qed.

(** C8, as the code has it.  Nothing looks at the market-data key when the
    module is loaded; each call of the two data functions tests it, and
    when it is missing returns [None] without any request to the provider
    (whatever the HTTP client would answer).  The orchestrator then gives
    the same fixed text as for a failed retrieval, and raises nothing. *)
Theorem missing_key_checked_per_call :
  key_missing E = true ->
  get_market_news_data E = Ok PNone
  /\ (forall t, get_stock_analysis_data E t = Ok PNone)
  /\ (forall h, get_market_news_data (with_http E h) = Ok PNone)
  /\ (forall h t, get_stock_analysis_data (with_http E h) t = Ok PNone)
  /\ (forall req st,
        fst (executor E req news_plan st)
        = Ok (mkChatResponse NO_NEWS_MSG "gemini"))
  /\ (forall req t st,
        fst (executor E req (ticker_plan t) st)
        = Ok (mkChatResponse (no_stock_data_msg (py_str E t)) "gemini")).
Proof.
  intros Hk.
  assert (Hn : get_market_news_data E = Ok PNone).
  { unfold get_market_news_data. now rewrite Hk. }
  assert (Hs : forall t, get_stock_analysis_data E t = Ok PNone).
  { intros t. unfold get_stock_analysis_data. now rewrite Hk. }
  split; [exact Hn|]. split; [exact Hs|].
  split.
  { intros h. unfold get_market_news_data.
    now rewrite key_missing_with_http, Hk. }
  split.
  { intros h t. unfold get_stock_analysis_data.
    now rewrite key_missing_with_http, Hk. }
  split.
  - intros req st. unfold executor, news_plan, bind, lift. cbn [get].
    cbn [dict_get dict_lookup String.eqb]. cbn.
    unfold news_branch, bind, emit, lift, ret. rewrite Hn. reflexivity.
  - intros req t [g tr]. unfold ticker_plan.
    rewrite executor_stock by reflexivity.
    rewrite (stock_branch_ticker_run E _
               [("type", PStr "ticker"); ("value", t)] []) by reflexivity.
    cbv zeta.
    change (dict_get "value" [("type", PStr "ticker"); ("value", t)] PNone)
      with t.
    rewrite Hs. reflexivity.
Qed.

End Credential.

(** ** The theorems on concrete runs *)

(** C1 on two items, with a counter charging one token per character. *)
Lemma news_loop_budget_witness :
  exists k : nat,
    (k <= 2)%nat
    /\ final_response
         (glob (snd (news_loop no_key_env [feed_item "a"; feed_item "b"] st0)))
       = join nl (map (summary no_key_env)
                      (firstn k [feed_item "a"; feed_item "b"])).
Proof.
  destruct (news_loop_budget no_key_env [feed_item "a"; feed_item "b"]
              (mkGlobals PNone "" 0) [])
    as (k & Hk & _ & _ & _ & _ & _ & _ & _ & Htxt).
  exists k. split; [exact Hk | exact (Htxt eq_refl)].
Defined.

(** C3 when the overview lookup fails at the transport level. *)
Lemma fan_out_abort_witness :
  (exists e, http_get overview_down_env
               (overview_url overview_down_env (PStr "TSLA")) = Raise e)
  /\ get_stock_analysis_data overview_down_env (PStr "TSLA") = Ok PNone.
Proof.
  assert (H : exists e, http_get overview_down_env
                          (overview_url overview_down_env (PStr "TSLA"))
                        = Raise e).
  { exists RequestError. reflexivity. }
  split; [exact H|].
  apply (proj2 (fan_out_abort overview_down_env (PStr "TSLA"))).
  right. left. exact H.
Defined.

(** C4 with a quote, an overview and a refused news lookup. *)
Lemma stock_sections_witness :
  exists d,
    get_stock_analysis_data data_env (PStr "TSLA") = Ok (PDict d)
    /\ dict_has "quote" d = true
    /\ dict_has "overview" d = true
    /\ dict_has "news" d = false.
Proof.
  destruct (stock_sections data_env (PStr "TSLA")
              (mkHttpResponse 200
                 (Ok (PDict [("Global Quote",
                              PDict [("05. price", PStr "250.10");
                                     ("06. volume", PStr "1000")])])))
              (mkHttpResponse 200 (Ok (PDict [("PERatio", PStr "60.2")])))
              (mkHttpResponse 429 (Raise JSONDecodeError))
              eq_refl eq_refl eq_refl eq_refl eq_refl eq_refl eq_refl)
    as (d & Hd & Hq & Ho & Hn & _).
  exists d. repeat split; assumption.
Defined.

(** C4 as stated fails: a notice answered with status 200 to the overview
    lookup holds none of the expected fields, yet the dict gets an
    [overview] section. *)
Lemma overview_section_counterexample :
  ~ (forall (E : env) (ticker : pyval) (o : http_response)
            (d : list (string * pyval)),
        key_missing E = false ->
        http_get E (overview_url E ticker) = Ok o ->
        get_stock_analysis_data E ticker = Ok (PDict d) ->
        (dict_has "overview" d = true <->
         status_code o = 200
         /\ exists k, In k overview_keys /\ has_key k o = true)).
Proof.
  intros H.
  destruct (H notice_env (PStr "TSLA") (mkHttpResponse 200 (Ok notice_body))
              [("overview",
                PDict [("market_cap", PNone); ("pe_ratio", PNone);
                       ("eps", PNone); ("52_week_high", PNone);
                       ("52_week_low", PNone)])]
              eq_refl eq_refl eq_refl) as [Hfwd _].
  destruct (Hfwd eq_refl) as (_ & k & Hin & Hk).
  cbn in Hin.
  destruct Hin as [<-|[<-|[<-|[<-|[<-|[]]]]]]; discriminate Hk.
Qed.

(** C5 on a stock_analysis plan without entities. *)
Lemma ticker_gate_witness :
  dict_lookup "intent" no_entity_plan = Some (PStr "stock_analysis")
  /\ executor no_key_env (mkChatRequest "Analyze it") (PDict no_entity_plan) st0
     = (Ok (mkChatResponse NEED_TICKER_MSG "gemini"), st0).
Proof.
  split; [reflexivity|].
  apply (proj1 (ticker_gate no_key_env (mkChatRequest "Analyze it")
                  no_entity_plan st0 eq_refl)).
  left. reflexivity.
Defined.

(** C5 as stated fails: a ticker entity without a value passes the gate and
    the aggregator is called with [None]. *)
Lemma unvalidated_ticker_counterexample :
  ~ (forall (E : env) (req : ChatRequest) (d : list (string * pyval))
            (st : state) (t : pyval),
        dict_lookup "intent" d = Some (PStr "stock_analysis") ->
        In t (stock_data_calls (trace (snd (executor E req (PDict d) st)))) ->
        exists s, t = PStr s /\ s <> "").
Proof.
  intros H.
  destruct (H no_key_env (mkChatRequest "Analyze it") no_value_plan st0 PNone
              eq_refl) as (s & Hs & _).
  - vm_compute. left. reflexivity.
  - discriminate Hs.
Qed.

(** The fallback on a planner that answers with plain words. *)
Lemma malformed_plan_falls_back_witness :
  malformed_text (demo_env "Hi there" None no_network demo_count) "Hi there"
  /\ fst (process_request (demo_env "Hi there" None no_network demo_count)
            (mkChatRequest "Hi there") st0)
     = Ok (mkChatResponse "Digest: Hi there" "gemini").
Proof.
  assert (H : malformed_text (demo_env "Hi there" None no_network demo_count)
                             "Hi there").
  { left. exists JSONDecodeError. split; reflexivity. }
  split; [exact H|].
  apply (proj2 (malformed_plan_falls_back
                  (demo_env "Hi there" None no_network demo_count)
                  (mkChatRequest "Hi there")) st0 H).
Defined.

(** C2.  The code misses a case of malformed planner output.  On a
    completion that is the text of a JSON list, [json.loads] succeeds, the
    handler of line 50 has nothing to catch, and [plan.get] at line 55
    raises [AttributeError], which leaves [process_request]: the request
    does not fall back on general_chat. *)
Theorem non_object_plan_raises :
  fst (process_request (demo_env "[]" None no_network demo_count)
         (mkChatRequest "Hi there") st0)
  = Raise AttributeError.
Proof. vm_compute. reflexivity. Qed.

(** C8 with no key in the environment. *)
Lemma missing_key_checked_per_call_witness :
  key_missing no_key_env = true
  /\ get_market_news_data no_key_env = Ok PNone.
Proof.
  split; [reflexivity|].
  apply (proj1 (missing_key_checked_per_call no_key_env eq_refl)).
Defined.

(** C8 as stated fails: without the key the answer is the text of a failed
    retrieval, which says nothing about configuration. *)
Lemma missing_key_counterexample :
  ~ (forall (E : env) (req : ChatRequest) (st : state) (r : ChatResponse),
        key_missing E = true ->
        fst (process_request E req st) = Ok r ->
        str_contains "not configured" (response r) = true).
Proof.
  intros H.
  assert (Hr : fst (process_request no_key_env
                      (mkChatRequest "give me the latest market news") st0)
               = Ok (mkChatResponse NO_NEWS_MSG "gemini")).
  { vm_compute. reflexivity. }
  specialize (H no_key_env _ st0 _ eq_refl Hr).
  vm_compute in H. discriminate H.
Qed.

(** C10 with a counter that is out of reach. *)
Lemma sentinel_disables_budget_witness :
  (forall s, gemini_count_tokens no_counter_env s = -1)
  /\ final_response
       (glob (snd (news_loop no_counter_env [feed_item "a"; feed_item "b"] st0)))
     = join nl (map (summary no_counter_env) [feed_item "a"; feed_item "b"]).
Proof.
  assert (H : forall s, gemini_count_tokens no_counter_env s = -1).
  { intros s. reflexivity. }
  split; [exact H|].
  apply (sentinel_disables_budget no_counter_env
           [feed_item "a"; feed_item "b"] PNone [] H).
Defined.

Section CountTokens.

Variable genai_installed : bool.
Variable gen : gen_request -> result dyn.
Variable count_tokens_api : string -> result dyn.
Variable py_int : dyn -> result Z.

Lemma concat_empty_sep_cons :
  forall x xs, String.concat "" (x :: xs) = x ++ String.concat "" xs.
Proof.
  intros x [|y ys]; cbn [String.concat].
  - now rewrite append_empty_r.
  - reflexivity.
Qed.

Lemma parts_text_of_texts :
  forall texts,
    exists out, parts_text (map part_obj texts) = Ok out
                /\ String.concat "" out = String.concat "" texts.
Proof.
  induction texts as [|t r (out & Ho & Hc)].
  - exists []. split; reflexivity.
  - cbn [map parts_text]. unfold part_obj at 1. cbn [getattr attr_lookup String.eqb Ascii.eqb Bool.eqb].
    cbn [rbind]. rewrite Ho. cbn [rbind].
    destruct (String.eqb t "") eqn:Ht.
    + exists out. split; [reflexivity|].
      apply String.eqb_eq in Ht. subst t.
      rewrite concat_empty_sep_cons. exact Hc.
    + exists (t :: out). split; [reflexivity|].
      rewrite !concat_empty_sep_cons. now rewrite Hc.
Qed.

(** X7. When the [text] accessor of the reply raises and the first
    candidate holds text parts, [chat] returns their texts put end to end
    with no separator, stripped; when that is blank (or there is no part)
    and nothing flags the reply, it returns the fixed "didn't understand"
    text. *)
Theorem chat_joins_parts :
  forall (self : GeminiService) (messages : list message) (temp : Q)
         (max_tokens : Z) (texts : list string),
    client_ready self = true ->
    gen (build_request messages temp max_tokens) = Ok (parts_reply texts) ->
    chat gen self messages temp max_tokens
    = Ok (if String.eqb (strip (String.concat "" texts)) "" then EMPTY_MSG
          else strip (String.concat "" texts)).
Proof.
  intros self messages temp max_tokens texts Hr Hg.
  unfold chat. rewrite Hr, Hg. cbn [negb rbind].
  change (probe_text (parts_reply texts)) with (@None string).
  unfold probe_candidates.
  change (getattr (parts_reply texts) "candidates")
    with (Ok (DSeq [DObj [("content",
                           Has (DObj [("parts",
                                       Has (DSeq (map part_obj texts)))]))]])).
  cbn [rbind dyn_truthy dyn_index0].
  change (getattr_or (DObj [("content",
                             Has (DObj [("parts",
                                         Has (DSeq (map part_obj texts)))]))])
                     "finish_reason" "finishReason") with (Ok DNone).
  cbn [rbind]. unfold candidate_text.
  change (getattr (DObj [("content",
                          Has (DObj [("parts",
                                      Has (DSeq (map part_obj texts)))]))])
                  "content")
    with (Ok (DObj [("parts", Has (DSeq (map part_obj texts)))])).
  cbn [rbind].
  change (getattr (DObj [("parts", Has (DSeq (map part_obj texts)))]) "parts")
    with (Ok (DSeq (map part_obj texts))).
  cbn [rbind].
  change (probe_prompt_feedback (parts_reply texts)) with (@None string).
  destruct texts as [|t r].
  - reflexivity.
  - cbn [map dyn_truthy dyn_iterate rbind].
    destruct (parts_text_of_texts (t :: r)) as (out & Ho & Hc).
    cbn [map] in Ho. rewrite Ho. cbn [rbind]. rewrite Hc.
    destruct (String.eqb (strip (String.concat "" (t :: r))) "");
      reflexivity.
Qed.

(** X3. With the client ready, when the SDK reports a total that is not
    zero, under [total_tokens] or else under [totalTokens], and [int] gives
    it back, [count_tokens] returns that total. *)
Theorem count_tokens_reported_total :
  forall (self : GeminiService) (txt name : string) (n : Z),
    client_ready self = true ->
    genai_installed = true ->
    (name = "total_tokens" \/ name = "totalTokens") ->
    count_tokens_api txt = Ok (count_reply name n) ->
    n <> 0 ->
    py_int (DInt n) = Ok n ->
    count_tokens genai_installed count_tokens_api py_int self txt = n.
Proof.
  intros self txt name n Hr Hg Hname Ha Hn Hi.
  unfold count_tokens. rewrite Hr, Hg, Ha. cbn [negb orb rbind].
  assert (Ht : getattr_or (count_reply name n) "total_tokens" "totalTokens"
               = Ok (DInt n)).
  { apply Z.eqb_neq in Hn.
    destruct Hname as [-> | ->]; unfold getattr_or, count_reply; cbn;
      try rewrite Hn; reflexivity. }
  rewrite Ht. cbn [rbind]. rewrite Hi. reflexivity.
Qed.

(** X4. A total of zero is taken for a missing one: when the SDK reports
    [total_tokens = 0] and nothing under [totalTokens], [count_tokens]
    returns the sentinel [-1], as it does when the SDK raises. *)
Theorem count_tokens_zero_is_unavailable :
  forall (self : GeminiService) (txt : string),
    (count_tokens_api txt = Ok (count_reply "total_tokens" 0)
     \/ exists e, count_tokens_api txt = Raise e) ->
    count_tokens genai_installed count_tokens_api py_int self txt = -1.
Proof.
  intros self txt H. unfold count_tokens.
  destruct (negb (client_ready self) || negb genai_installed); [reflexivity|].
  destruct H as [H|[e H]]; rewrite H; reflexivity.
Qed.

(** X5. A service built without the SDK, without a key, with an empty key,
    or whose configuration failed is not ready: every [chat] returns the
    fixed "not configured" text and every [count_tokens] returns [-1],
    whatever the SDK would answer. *)
Theorem unconfigured_service :
  forall (installed : bool) (api_key : option string) (configure : result unit)
         (messages : list message) (temp : Q) (max_tokens : Z) (txt : string),
    (installed = false \/ api_key = None \/ api_key = Some ""
     \/ exists e, configure = Raise e) ->
    chat gen (_init_client installed api_key configure) messages temp max_tokens
    = Ok NOT_CONFIGURED_MSG
    /\ count_tokens genai_installed count_tokens_api py_int
         (_init_client installed api_key configure) txt = -1.
Proof.
  intros installed api_key configure messages temp max_tokens txt H.
  assert (Hr : client_ready (_init_client installed api_key configure) = false).
  { unfold _init_client.
    destruct H as [-> |[-> |[-> |[e ->]]]]; try reflexivity;
      destruct installed; try reflexivity.
    destruct api_key as [k|]; [|reflexivity].
    destruct (String.eqb k ""); reflexivity. }
  unfold chat, count_tokens. rewrite Hr. split; reflexivity.
Qed.

End CountTokens.

(** ** More on the orchestrator *)

Section Routing.

Variable E : env.

(** X8. A plan whose [intent] is neither [stock_analysis] nor
    [market_news] (another word, another letter case, no string at all) is
    served by the general branch: one completion call with a ceiling of
    512 tokens, no data call, and the module state is left as it is. *)
Theorem unknown_intent_is_general :
  forall (req : ChatRequest) (d : list (string * pyval)) (g : globals)
         (tr : list event),
    eq_str (dict_get "intent" d PNone) "stock_analysis" = false ->
    eq_str (dict_get "intent" d PNone) "market_news" = false ->
    executor E req (PDict d) (mkState g tr)
    = (Ok (mkChatResponse (reply E (general_messages req) (1 # 2) 512) "gemini"),
       mkState g (tr ++ [CallChat (general_messages req) (1 # 2) 512])).
Proof.
  intros req d g tr H1 H2. unfold executor, bind, lift. cbn [get].
  rewrite H1, H2. apply general_branch_run.
Qed.

Lemma executor_non_object :
  forall req v st, is_dict v = false ->
    executor E req v st = (Raise AttributeError, st).
Proof.
  intros req v st H. unfold executor, bind, lift.
  destruct v; try discriminate; reflexivity.
Qed.

Lemma process_request_decoded :
  forall req g tr v,
    json_loads E (planner_text E req) = Ok v ->
    process_request E req (mkState g tr)
    = executor E req v
        (mkState (mkGlobals (PStr (reply E (planner_messages req) 0 1000)) "" 0)
                 (tr ++ [CallChat (planner_messages req) 0 1000])).
Proof.
  intros req g tr v H. unfold process_request, pipeline. unfold bind at 1.
  rewrite reset_globals_spec.
  unfold planning, planner_call, call_chat, try_when, bind, emit, lift, ret,
    set_planner_response, read, write.
  cbn [glob trace]. rewrite gemini_chat_reply.
  cbn [glob trace decode_plan py_strip rbind fresh_globals final_response
       final_response_token].
  fold (planner_text E req). rewrite H. reflexivity.
Qed.

(** X9. When the planner's completion decodes to JSON that is not an
    object (a list, a string, a number, [null]), [process_request] raises
    [AttributeError] at line 55: the only call made is the planner's. *)
Theorem non_object_plan_fails :
  forall (req : ChatRequest) (g : globals) (tr : list event) (v : pyval),
    json_loads E (planner_text E req) = Ok v ->
    is_dict v = false ->
    fst (process_request E req (mkState g tr)) = Raise AttributeError
    /\ trace (snd (process_request E req (mkState g tr)))
       = (tr ++ [CallChat (planner_messages req) 0 1000])%list.
Proof.
  intros req g tr v Hv Hd.
  rewrite (process_request_decoded req g tr v Hv).
  rewrite executor_non_object by exact Hd. split; reflexivity.
Qed.

End Routing.

(** ** The markdown fence around a plan *)

Section Fences.

Lemma substring_all : forall s, String.substring 0 (String.length s) s = s.
Proof. induction s as [|c r IH]; cbn; [reflexivity|]. now rewrite IH. Qed.

Lemma substring_front :
  forall b w, String.substring 0 (String.length b) (b ++ w) = b.
Proof.
  induction b as [|c r IH]; intros w; cbn.
  - destruct w; reflexivity.
  - now rewrite IH.
Qed.

Lemma length_app :
  forall a b : string,
    String.length (a ++ b) = (String.length a + String.length b)%nat.
Proof. induction a as [|c r IH]; intros b; cbn; [reflexivity|]. now rewrite IH. Qed.

Lemma prefix_app : forall p r, String.prefix p (p ++ r) = true.
Proof.
  induction p as [|c p IH]; intros r.
  - destruct r; reflexivity.
  - cbn. destruct (ascii_dec c c) as [_|Hn]; [apply IH|now elim Hn].
Qed.

Lemma strip_fenced :
  forall body,
    strip ("```json" ++ body ++ "```") = "```json" ++ body ++ "```".
Proof.
  intros body. unfold strip.
  change (lstrip ("```json" ++ body ++ "```")) with ("```json" ++ body ++ "```").
  unfold rstrip.
  assert (H : lstrip (rev_string ("```json" ++ body ++ "```"))
              = rev_string ("```json" ++ body ++ "```")).
  { rewrite !rev_string_app.
    change (rev_string "```") with "```". reflexivity. }
  rewrite H. apply rev_string_involutive.
Qed.

Lemma strip_fences_fenced :
  forall body, strip_fences ("```json" ++ body ++ "```") = strip body.
Proof.
  intros body. unfold strip_fences.
  assert (Hs : startswith ("```json" ++ body ++ "```") "```json" = true)
    by apply prefix_app.
  rewrite Hs. f_equal.
  assert (Hp : removeprefix ("```json" ++ body ++ "```") "```json"
               = body ++ "```").
  { unfold removeprefix. rewrite Hs.
    change (String.length ("```json" ++ body ++ "```"))
      with (7 + String.length (body ++ "```"))%nat.
    change (String.length "```json") with 7%nat.
    replace (7 + String.length (body ++ "```") - 7)%nat
      with (String.length (body ++ "```")) by lia.
    change (String.substring 7 (String.length (body ++ "```"))
              ("```json" ++ body ++ "```"))
      with (String.substring 0 (String.length (body ++ "```")) (body ++ "```")).
    apply substring_all. }
  rewrite Hp. unfold removesuffix.
  assert (He : endswith (body ++ "```") "```" = true).
  { unfold endswith. rewrite rev_string_app. apply prefix_app. }
  rewrite He. cbn [String.eqb negb andb].
  rewrite length_app. change (String.length "```") with 3%nat.
  replace (String.length body + 3 - 3)%nat with (String.length body) by lia.
  apply substring_front.
Qed.

(** X10. A plan wrapped in a markdown fence is decoded from its body: when
    the completion, once stripped, is [```json], a body and [```], what
    goes to [json.loads] is the body stripped of surrounding blanks. *)
Theorem fenced_plan_decodes :
  forall (E : env) (s body : string),
    strip s = "```json" ++ body ++ "```" ->
    decode_plan E (PStr s) = json_loads E (strip body).
Proof.
  intros E s body H. unfold decode_plan. cbn [py_strip rbind].
  rewrite H. now rewrite strip_fences_fenced.
Qed.

End Fences.

(** ** What every answer carries *)

Section Backend.

Variable E : env.

Lemma returns_ret : forall A (P : A -> Prop) a, P a -> returns P (ret a).
Proof. intros A P a H st a' st' Hr. injection Hr as <- _. exact H. Qed.

Lemma returns_bind :
  forall A B (P : B -> Prop) (m : M A) (k : A -> M B),
    (forall a, returns P (k a)) -> returns P (bind m k).
Proof.
  intros A B P m k H st b st' Hr. unfold bind in Hr.
  destruct (m st) as [[a|e] s1]; [|discriminate].
  exact (H a s1 b st' Hr).
Qed.

Lemma returns_if :
  forall A (P : A -> Prop) (b : bool) (m1 m2 : M A),
    returns P m1 -> returns P m2 -> returns P (if b then m1 else m2).
Proof. intros A P b m1 m2 H1 H2. destruct b; assumption. Qed.

Ltac returns_step := first
  [ apply returns_ret; reflexivity | apply returns_if | apply returns_bind ].

(** X11. Every [ChatResponse] that [process_request] returns, on whatever
    branch, names the backend [gemini]. *)
Theorem backend_is_gemini :
  forall (req : ChatRequest) (st : state),
    match fst (process_request E req st) with
    | Ok r => backend r = "gemini"
    | Raise _ => True
    end.
Proof.
  intros req st.
  assert (H : returns (fun r => backend r = "gemini") (process_request E req)).
  { unfold process_request, pipeline.
    apply returns_bind. intros _. apply returns_bind. intros plan.
    unfold executor. apply returns_bind. intros intent.
    apply returns_if; [|apply returns_if].
    - unfold stock_branch. repeat (intros; returns_step).
    - unfold news_branch. repeat (intros; returns_step).
    - unfold general_branch. repeat (intros; returns_step). }
  destruct (process_request E req st) as [[r|e] st'] eqn:Hr; cbn [fst];
    [|exact I].
  exact (H st r st' Hr).
Qed.

End Backend.

(** ** The market-news lookup *)

Section MarketNews.

Variable E : env.

Lemma mapM_news_item :
  forall l, forallb is_dict l = true ->
    mapM news_item l = Ok (map news_projection l).
Proof.
  induction l as [|x r IH]; intros H; [reflexivity|].
  cbn [forallb] in H. apply andb_prop in H. destruct H as [Hx Hr].
  destruct x; try discriminate.
  cbn [mapM news_item get rbind map news_projection].
  now rewrite (IH Hr).
Qed.

(** The entries [get_market_news_data] builds from a feed. *)
Lemma news_data_of_feed :
  forall (r : http_response) (b : list (string * pyval)) (feed : list pyval),
    key_missing E = false ->
    http_get E (news_url E) = Ok r ->
    status_code r = 200 ->
    json r = Ok (PDict b) ->
    dict_lookup "feed" b = Some (PList feed) ->
    forallb is_dict feed = true ->
    get_market_news_data E = Ok (PList (map news_projection feed)).
Proof.
  intros r b feed Hk Hg Hs Hj Hf Hd. unfold get_market_news_data.
  rewrite Hk, Hg. cbn [rbind try_except_when]. rewrite Hs, Hj.
  cbn [Z.eqb Pos.eqb rbind contains get]. unfold dict_has, dict_get.
  rewrite Hf. cbn [rbind iterate]. rewrite (mapM_news_item feed Hd).
  reflexivity.
Qed.

(** X12. On a response with status 200 whose body holds a [feed] list of
    objects, [get_market_news_data] returns one [{title, summary}] entry
    per item of the feed, in the order of the feed and without any cap on
    their number; a field missing from an item becomes [None]. *)
Theorem news_data_keeps_feed :
  forall (r : http_response) (b : list (string * pyval)) (feed : list pyval),
    key_missing E = false ->
    http_get E (news_url E) = Ok r ->
    status_code r = 200 ->
    json r = Ok (PDict b) ->
    dict_lookup "feed" b = Some (PList feed) ->
    forallb is_dict feed = true ->
    get_market_news_data E = Ok (PList (map news_projection feed)).
Proof. exact news_data_of_feed. Qed.

Lemma news_branch_no_data :
  forall req g tr v,
    get_market_news_data E = Ok v -> truthy v = false ->
    news_branch E req (mkState g tr)
    = (Ok (mkChatResponse NO_NEWS_MSG "gemini"),
       mkState g (tr ++ [CallNewsData])).
Proof.
  intros req g tr v Hv Ht. unfold news_branch, bind, emit, lift, ret.
  cbn [glob trace]. rewrite Hv, Ht. reflexivity.
Qed.

Lemma executor_news :
  forall req st, executor E req news_plan st = news_branch E req st.
Proof. reflexivity. Qed.

(** X13. When the news lookup fails at the transport level with a
    [RequestError], answers with a status other than 200, answers 200
    with an object that has no [feed] key, or with an empty feed, a
    market_news plan is answered with the fixed "couldn't retrieve the
    latest market news" text, and no completion call is made. *)
Theorem no_news_is_apologised :
  forall (req : ChatRequest) (g : globals) (tr : list event),
    key_missing E = false ->
    (http_get E (news_url E) = Raise RequestError
     \/ (exists r, http_get E (news_url E) = Ok r /\ status_code r <> 200)
     \/ (exists r b, http_get E (news_url E) = Ok r /\ status_code r = 200
                     /\ json r = Ok (PDict b)
                     /\ (dict_lookup "feed" b = None
                         \/ dict_lookup "feed" b = Some (PList [])))) ->
    executor E req news_plan (mkState g tr)
    = (Ok (mkChatResponse NO_NEWS_MSG "gemini"),
       mkState g (tr ++ [CallNewsData])).
Proof.
  intros req g tr Hk H. rewrite executor_news.
  destruct H as [H|[(r & H & Hs)|(r & b & H & Hs & Hj & Hf)]].
  - apply (news_branch_no_data req g tr PNone); [|reflexivity].
    unfold get_market_news_data. now rewrite Hk, H.
  - apply (news_branch_no_data req g tr PNone); [|reflexivity].
    unfold get_market_news_data. rewrite Hk, H.
    apply Z.eqb_neq in Hs. cbn [rbind try_except_when]. now rewrite Hs.
  - destruct Hf as [Hf|Hf].
    + apply (news_branch_no_data req g tr PNone); [|reflexivity].
      unfold get_market_news_data. rewrite Hk, H.
      cbn [rbind try_except_when]. rewrite Hs, Hj.
      cbn [Z.eqb Pos.eqb rbind contains]. unfold dict_has. now rewrite Hf.
    + apply (news_branch_no_data req g tr (PList [])); [|reflexivity].
      rewrite (news_data_of_feed r b [] Hk H Hs Hj Hf eq_refl).
      reflexivity.
Qed.

(** X14. [get_market_news_data] catches [httpx.RequestError] only: any
    other exception of the transport, and the exception [response.json()]
    raises on a body of status 200 that does not decode, comes out of the
    function and out of the orchestrator on a market_news plan. *)
Theorem news_errors_propagate :
  forall (e : exn),
    key_missing E = false ->
    is_request_error e = false ->
    (http_get E (news_url E) = Raise e
     \/ exists r, http_get E (news_url E) = Ok r /\ status_code r = 200
                  /\ json r = Raise e) ->
    get_market_news_data E = Raise e
    /\ forall req st, fst (executor E req news_plan st) = Raise e.
Proof.
  intros e Hk He H.
  assert (Hd : get_market_news_data E = Raise e).
  { unfold get_market_news_data. rewrite Hk.
    destruct H as [H|(r & H & Hs & Hj)]; rewrite H;
      cbn [rbind try_except_when].
    - now rewrite He.
    - rewrite Hs, Hj. cbn [Z.eqb Pos.eqb rbind try_except_when].
      now rewrite He. }
  split; [exact Hd|].
  intros req st. rewrite executor_news.
  unfold news_branch, bind, emit, lift. rewrite Hd. reflexivity.
Qed.

End MarketNews.

(** ** More on the stock-data aggregator *)

Section StockData.

Variable E : env.

Lemma dict_lookup_set_same :
  forall k v d, dict_lookup k (dict_set k v d) = Some v.
Proof.
  intros k v d. induction d as [|[k' v'] r IH]; cbn [dict_set dict_lookup].
  - now rewrite String.eqb_refl.
  - destruct (String.eqb k' k) eqn:Hk; cbn [dict_lookup]; rewrite Hk;
      [reflexivity | exact IH].
Qed.

Lemma mapM_stock_news_projection :
  forall l, forallb is_dict l = true ->
    mapM stock_news_item l = Ok (map stock_news_projection l).
Proof.
  induction l as [|x r IH]; intros H; [reflexivity|].
  cbn [forallb] in H. apply andb_prop in H. destruct H as [Hx Hr].
  destruct x; try discriminate.
  cbn [mapM stock_news_item get rbind map stock_news_projection].
  now rewrite (IH Hr).
Qed.

Lemma add_news_feed :
  forall n b feed d,
    status_code n = 200 ->
    json n = Ok (PDict b) ->
    dict_lookup "feed" b = Some (PList feed) ->
    forallb is_dict (firstn 3 feed) = true ->
    add_news n d
    = Ok (dict_set "news"
            (PList (map stock_news_projection (firstn 3 feed))) d).
Proof.
  intros n b feed d Hs Hj Hf Hd. unfold add_news. rewrite Hs, Hj.
  cbn [Z.eqb Pos.eqb rbind contains get]. unfold dict_has, dict_get.
  rewrite Hf. cbn [rbind iterate_slice].
  now rewrite (mapM_stock_news_projection _ Hd).
Qed.

(** X15. The [news] section of the stock payload holds the first three
    items of the provider's feed at most, in the order of the feed, each
    cut down to its title and its sentiment label. *)
Theorem stock_news_is_capped :
  forall (ticker : pyval) (q o n : http_response)
         (b : list (string * pyval)) (feed : list pyval),
    key_missing E = false ->
    http_get E (quote_url E ticker) = Ok q ->
    http_get E (overview_url E ticker) = Ok o ->
    http_get E (stock_news_url E ticker) = Ok n ->
    quote_shape q = true -> overview_shape o = true ->
    status_code n = 200 ->
    json n = Ok (PDict b) ->
    dict_lookup "feed" b = Some (PList feed) ->
    forallb is_dict (firstn 3 feed) = true ->
    exists d,
      get_stock_analysis_data E ticker = Ok (PDict d)
      /\ dict_lookup "news" d
         = Some (PList (map stock_news_projection (firstn 3 feed)))
      /\ (List.length (map stock_news_projection (firstn 3 feed)) <= 3)%nat.
Proof.
  intros ticker q o n b feed Hk Gq Go Gn Sq So Hs Hj Hf Hd.
  unfold get_stock_analysis_data. rewrite Hk, Gq, Go, Gn.
  unfold consolidate.
  destruct (add_quote_run q [] Sq) as [vq Eq]. rewrite Eq. cbn [rbind].
  match goal with |- context [add_overview o ?d] =>
    destruct (add_overview_run o d So) as [vo Eo]; rewrite Eo end.
  cbn [rbind]. rewrite (add_news_feed n b feed _ Hs Hj Hf Hd).
  cbn [rbind try_except]. eexists. split; [reflexivity|].
  split; [apply dict_lookup_set_same|].
  rewrite length_map. apply firstn_le_length.
Qed.

(** X16. A response with status 200 whose body does not decode makes the
    whole aggregation return [None], even when the two other lookups
    answered with data. *)
Theorem undecodable_body_aborts :
  forall (ticker : pyval) (q o n : http_response),
    key_missing E = false ->
    http_get E (quote_url E ticker) = Ok q ->
    http_get E (overview_url E ticker) = Ok o ->
    http_get E (stock_news_url E ticker) = Ok n ->
    ((status_code q = 200 /\ exists e, json q = Raise e)
     \/ (status_code o = 200 /\ exists e, json o = Raise e)
     \/ (status_code n = 200 /\ exists e, json n = Raise e)) ->
    get_stock_analysis_data E ticker = Ok PNone.
Proof.
  intros ticker q o n Hk Gq Go Gn H.
  unfold get_stock_analysis_data. rewrite Hk, Gq, Go, Gn.
  assert (Hc : exists e, consolidate q o n = Raise e).
  { unfold consolidate.
    destruct H as [[Hs [e He]]|[[Hs [e He]]|[Hs [e He]]]].
    - exists e. unfold add_quote. rewrite Hs, He. reflexivity.
    - destruct (add_quote q []) as [d1|e1]; cbn [rbind]; [|eauto].
      exists e. unfold add_overview. rewrite Hs, He. reflexivity.
    - destruct (add_quote q []) as [d1|e1]; cbn [rbind]; [|eauto].
      destruct (add_overview o d1) as [d2|e2]; cbn [rbind]; [|eauto].
      exists e. unfold add_news. rewrite Hs, He. reflexivity. }
  destruct Hc as [e Hc]. rewrite Hc. reflexivity.
Qed.

End StockData.

(** ** The news branch as a whole *)

Section NewsBranch.

Variable E : env.

Lemma news_branch_run :
  forall req g tr items,
    get_market_news_data E = Ok (PList items) -> items <> [] ->
    news_branch E req (mkState g tr)
    = match news_loop E items
              (mkState (mkGlobals (planner_response g) "" 0)
                       (tr ++ [CallNewsData])) with
      | (Ok _, s1) =>
          let msgs := news_final_messages req (final_response (glob s1)) in
          let r := reply E msgs (1 # 2) 2048 in
          (Ok (mkChatResponse r "gemini"),
           mkState (mkGlobals (planner_response (glob s1)) r
                              (final_response_token (glob s1)))
                   (trace s1 ++ [CallChat msgs (1 # 2) 2048]))
      | (Raise e, s1) => (Raise e, s1)
      end.
Proof.
  intros req g tr items Hd Hne. unfold news_branch.
  unfold bind at 1. unfold emit at 1. unfold bind at 1. unfold lift at 1.
  rewrite Hd. cbn [glob trace].
  assert (Ht : truthy (PList items) = true).
  { destruct items; [now elim Hne | reflexivity]. }
  rewrite Ht. cbn [negb].
  unfold bind at 1. unfold set_final_response_token at 1.
  unfold bind at 1. unfold read at 1. unfold write at 1.
  unfold bind at 1. unfold set_final_response at 1.
  unfold bind at 1. unfold read at 1. unfold write at 1.
  unfold bind at 1. unfold lift at 1. cbn [iterate glob trace].
  cbn [planner_response final_response final_response_token].
  unfold bind at 1.
  destruct (news_loop E items _) as [[u|e] s1]; [|reflexivity].
  unfold bind, read, call_chat, emit, lift, set_final_response, write, ret.
  cbn [glob trace]. fold (news_final_messages req (final_response (glob s1))).
  rewrite gemini_chat_reply. reflexivity.
Qed.

(** X17. On a market_news plan with a feed that is not empty, the answer
    is the completion of one last call whose user content is the
    accumulated digest: the summaries of the first [k] items, one per
    line, [k] being where the budget loop stopped (each of the first [k]
    items passed the budget test, and item [k], if there is one, failed
    it).  The completion calls of the branch are those of the first
    [k + 1] items followed by that last call, which has a ceiling of
    [2 * MAX_TOKENS] tokens. *)
Theorem news_digest_is_resynthesised :
  forall (req : ChatRequest) (g : globals) (tr : list event)
         (items : list pyval),
    get_market_news_data E = Ok (PList items) -> items <> [] ->
    exists k : nat,
      (k <= List.length items)%nat
      /\ fst (executor E req news_plan (mkState g tr))
         = Ok (mkChatResponse
                 (reply E
                    (news_final_messages req
                       (join nl (map (summary E) (firstn k items))))
                    (1 # 2) (2 * MAX_TOKENS))
                 "gemini")
      /\ (forall i, (i < k)%nat ->
            acc_tokens E "" 0 items i + summary_tokens E (nth i items PNone)
            <= MAX_TOKENS)
      /\ ((k < List.length items)%nat ->
            acc_tokens E "" 0 items k + summary_tokens E (nth k items PNone)
            > MAX_TOKENS)
      /\ chat_calls (trace (snd (executor E req news_plan (mkState g tr))))
         = (chat_calls tr
            ++ map (news_item_messages E) (firstn (S k) items)
            ++ [news_final_messages req
                  (join nl (map (summary E) (firstn k items)))])%list.
Proof.
  intros req g tr items Hd Hne. rewrite executor_news.
  rewrite (news_branch_run req g tr items Hd Hne).
  destruct (news_loop_prefix E items (mkGlobals (planner_response g) "" 0)
              (tr ++ [CallNewsData]))
    as (k & Hk & Hres & Htxt & _ & Hpass & Hstop & Hcalls & _).
  destruct (news_loop E items _) as [[u|e] s1]; cbn [fst snd] in *;
    [|discriminate].
  cbn [final_response final_response_token] in *.
  change (acc_text E "" items k)
    with (join nl (map (summary E) (firstn k items))) in Htxt.
  exists k. split; [exact Hk|]. cbv zeta. cbn [fst snd trace].
  rewrite Htxt. split; [reflexivity|].
  split; [exact Hpass|]. split; [exact Hstop|].
  rewrite chat_calls_app, Hcalls, chat_calls_app. cbn [chat_calls flat_map].
  rewrite !app_nil_r, <- app_assoc. reflexivity.
Qed.

(** X18. When the summary of the very first item is already over the
    budget, nothing is accumulated: the other items are never summarized
    and the last call is made over an empty digest. *)
Theorem first_item_over_budget :
  forall (req : ChatRequest) (g : globals) (tr : list event)
         (item : pyval) (rest : list pyval),
    get_market_news_data E = Ok (PList (item :: rest)) ->
    summary_tokens E item > MAX_TOKENS ->
    fst (executor E req news_plan (mkState g tr))
    = Ok (mkChatResponse
            (reply E (news_final_messages req "") (1 # 2) (2 * MAX_TOKENS))
            "gemini")
    /\ chat_calls (trace (snd (executor E req news_plan (mkState g tr))))
       = (chat_calls tr
          ++ [news_item_messages E item; news_final_messages req ""])%list.
Proof.
  intros req g tr item rest Hd Hover. rewrite executor_news.
  rewrite (news_branch_run req g tr (item :: rest) Hd) by discriminate.
  rewrite news_loop_cons, news_iteration_run. cbv zeta.
  cbn [final_response_token final_response].
  assert (Hg : (0 + summary_tokens E item >? MAX_TOKENS) = true).
  { apply Z.gtb_lt. lia. }
  rewrite Hg. cbn [fst snd glob trace final_response].
  split; [reflexivity|].
  rewrite !chat_calls_app. cbn [chat_calls flat_map].
  rewrite !app_nil_r, <- !app_assoc. reflexivity.
Qed.

End NewsBranch.

(** ** The chat endpoint *)

Section Endpoint.

Variable E : env.
Variable exn_str : exn -> string.

(** X19. With the backend left at its default or set to [gemini], a
    planner completion that decodes to JSON other than an object makes the
    endpoint answer with an HTTP 500 whose detail is the text of the
    [AttributeError]. *)
Theorem endpoint_fails_on_non_object_plan :
  forall (backend_env : option string) (req : ChatRequest) (g : globals)
         (tr : list event) (v : pyval),
    (backend_env = None \/ backend_env = Some "gemini") ->
    json_loads E (planner_text E req) = Ok v ->
    is_dict v = false ->
    fst (chat_endpoint E backend_env exn_str req (mkState g tr))
    = HTTPException 500 (exn_str AttributeError).
Proof.
  intros backend_env req g tr v Hb Hv Hd.
  assert (Hf : fst (process_request E req (mkState g tr))
               = Raise AttributeError).
  { rewrite (process_request_decoded E req g tr v Hv).
    now rewrite executor_non_object. }
  unfold chat_endpoint.
  assert (Hbk : String.eqb (CHAT_MODEL_BACKEND backend_env) "gemini" = true).
  { destruct Hb as [-> | ->]; reflexivity. }
  rewrite Hbk.
  destruct (process_request E req (mkState g tr)) as [[r|e] st'];
    cbn [fst] in *; [discriminate|].
  injection Hf as ->. reflexivity.
Qed.

(** X20. With the backend set to any name other than [gemini] (another
    letter case included), the endpoint does not run the pipeline: it
    answers with the echo of the request text, labelled [mistral]. *)
Theorem endpoint_echoes_on_other_backend :
  forall (name : string) (req : ChatRequest) (st : state),
    name <> "gemini" ->
    chat_endpoint E (Some name) exn_str req st
    = (Returned (mkChatResponse ("Echo: " ++ text req) "mistral"), st).
Proof.
  intros name req st Hn. unfold chat_endpoint. cbn [CHAT_MODEL_BACKEND].
  apply String.eqb_neq in Hn. rewrite Hn. reflexivity.
Qed.

End Endpoint.

(** ** AlphaVantageService *)

Section AlphaVantage.

Variable A : av_env.

(** X21. Without the environment variable (unset or empty) every lookup
    of [AlphaVantageService] raises [RuntimeError] before any request is
    made, whatever key was handed to the constructor. *)
Theorem av_get_requires_env_key :
  forall (api_key : option string) (params : list (string * pyval)),
    (av_getenv_key A = None \/ av_getenv_key A = Some "") ->
    _get A (av_init A api_key) params = Raise (OtherError "RuntimeError").
Proof.
  intros api_key params H. unfold _get, av_init. cbn [av_api_key].
  destruct H as [-> | ->]; reflexivity.
Qed.

(** With a key, [_get] hands back what the session gives: the
    exception of the transport, an [HTTPError] for a status from 400 to
    599 whatever the body, and otherwise the decoded body, or the
    exception met while decoding.  A notice or error object of the
    provider is returned like any other body. *)
Theorem av_get_passes_through :
  forall (api_key : option string) (k : string)
         (params : list (string * pyval)),
    av_getenv_key A = Some k -> k <> "" ->
    _get A (av_init A api_key) params
    = match av_session_get A (av_url A k params) with
      | Raise e => Raise e
      | Ok r =>
          if (400 <=? status_code r) && (status_code r <? 600)
          then Raise (OtherError "HTTPError")
          else json r
      end.
Proof.
  intros api_key k params Hk Hne. unfold _get, av_init. cbn [av_api_key].
  rewrite Hk. apply String.eqb_neq in Hne. rewrite Hne.
  destruct (av_session_get A (av_url A k params)) as [r|e];
    cbn [rbind try_except]; [|reflexivity].
  unfold raise_for_status.
  destruct ((400 <=? status_code r) && (status_code r <? 600));
    cbn [rbind try_except]; [reflexivity|].
  destruct (json r) as [data|e]; cbn [rbind try_except]; [|reflexivity].
  destruct (is_notice data); reflexivity.
Qed.

End AlphaVantage.

Lemma set_if_lookup_same :
  forall k v d,
    dict_lookup k d = None ->
    dict_lookup k (set_if k v d) = if truthy v then Some v else None.
Proof.
  intros k v d H. unfold set_if. destruct (truthy v); [|exact H].
  apply dict_lookup_set_same.
Qed.

Lemma dict_lookup_set_other :
  forall k k' v d,
    String.eqb k k' = false ->
    dict_lookup k' (dict_set k v d) = dict_lookup k' d.
Proof.
  intros k k' v d Hk. induction d as [|[k0 v0] r IH]; cbn [dict_set dict_lookup].
  - now rewrite Hk.
  - destruct (String.eqb k0 k) eqn:H0; cbn [dict_lookup].
    + apply String.eqb_eq in H0. subst k0. now rewrite Hk.
    + destruct (String.eqb k0 k'); [reflexivity | exact IH].
Qed.

Lemma set_if_lookup_other :
  forall k k' v d,
    String.eqb k k' = false ->
    dict_lookup k' (set_if k v d) = dict_lookup k' d.
Proof.
  intros k k' v d Hk. unfold set_if. destruct (truthy v); [|reflexivity].
  now apply dict_lookup_set_other.
Qed.

(** X22. [news_sentiment] always asks for the function [NEWS_SENTIMENT],
    and sends each optional argument exactly when it is truthy: an
    argument left out, an empty string and a limit of 0 are all dropped
    from the query. *)
Theorem news_sentiment_sends_truthy_arguments :
  forall (tickers topics time_from time_to sort limit : pyval),
    let ps := news_sentiment_params tickers topics time_from time_to sort limit in
    dict_lookup "function" ps = Some (PStr "NEWS_SENTIMENT")
    /\ dict_lookup "tickers" ps = (if truthy tickers then Some tickers else None)
    /\ dict_lookup "topics" ps = (if truthy topics then Some topics else None)
    /\ dict_lookup "time_from" ps
       = (if truthy time_from then Some time_from else None)
    /\ dict_lookup "time_to" ps = (if truthy time_to then Some time_to else None)
    /\ dict_lookup "sort" ps = (if truthy sort then Some sort else None)
    /\ dict_lookup "limit" ps = (if truthy limit then Some limit else None).
Proof.
  intros tickers topics time_from time_to sort limit ps. subst ps.
  unfold news_sentiment_params.
  repeat split;
    repeat first
      [ rewrite set_if_lookup_other by reflexivity
      | rewrite set_if_lookup_same
          by (repeat rewrite set_if_lookup_other by reflexivity; reflexivity)
      | reflexivity ].
Qed.

(** ** The CORS settings *)

Section Cors.

Lemma list_ascii_rev_string :
  forall s, list_ascii_of_string (rev_string s) = rev (list_ascii_of_string s).
Proof.
  intros s. unfold rev_string. apply list_ascii_of_string_of_list_ascii.
Qed.

Lemma lstrip_split :
  forall s, exists a, s = a ++ lstrip s /\ all_blank a.
Proof.
  induction s as [|c r (a & Ha & Hb)].
  - exists "". split; [reflexivity | constructor].
  - cbn [lstrip]. destruct (is_space c) eqn:Hc.
    + exists (String c a). split.
      * cbn. now rewrite <- Ha.
      * constructor; assumption.
    + exists "". split; [reflexivity | constructor].
Qed.

Lemma rstrip_split :
  forall s, exists b, s = rstrip s ++ b /\ all_blank b.
Proof.
  intros s. unfold rstrip.
  destruct (lstrip_split (rev_string s)) as (a & Ha & Hb).
  exists (rev_string a). split.
  - rewrite <- rev_string_app, <- Ha. symmetry. apply rev_string_involutive.
  - unfold all_blank. rewrite list_ascii_rev_string. now apply Forall_rev.
Qed.

(** [strip] takes blanks off both ends, and nothing else. *)
Lemma strip_split :
  forall s, exists a b, s = a ++ strip s ++ b /\ all_blank a /\ all_blank b.
Proof.
  intros s. destruct (lstrip_split s) as (a & Ha & Hba).
  destruct (rstrip_split (lstrip s)) as (b & Hb & Hbb).
  exists a, b. unfold strip. rewrite <- Hb. auto.
Qed.

Lemma strip_chars :
  forall s c, In c (list_ascii_of_string (strip s)) ->
              In c (list_ascii_of_string s).
Proof.
  intros s c H. destruct (strip_split s) as (a & b & Hs & _ & _).
  rewrite Hs at 1. rewrite !list_ascii_app.
  apply in_or_app. right. apply in_or_app. left. exact H.
Qed.

Lemma strip_empty_blank : forall s, strip s = "" -> all_blank s.
Proof.
  intros s H. destruct (strip_split s) as (a & b & Hs & Ha & Hb).
  rewrite H in Hs. cbn in Hs. unfold all_blank. rewrite Hs, list_ascii_app.
  apply Forall_app. split; assumption.
Qed.

Lemma lstrip_blank : forall s, all_blank s -> lstrip s = "".
Proof.
  induction s as [|c r IH]; intros H; [reflexivity|].
  cbn in H. inversion H as [|x l Hc Hr]; subst.
  cbn [lstrip]. rewrite Hc. now apply IH.
Qed.

Lemma strip_blank : forall s, all_blank s -> strip s = "".
Proof. intros s H. unfold strip. now rewrite (lstrip_blank s H). Qed.




Lemma only_separators_pieces :
  forall s, only_separators s -> Forall all_blank (split_comma s).
Proof.
  induction s as [|c r IH]; intros H; cbn [split_comma].
  - repeat constructor.
  - cbn in H. inversion H as [|x l Hc Hr]; subst.
    specialize (IH Hr).
    destruct (Ascii.eqb c comma) eqn:He.
    + constructor; [constructor | exact IH].
    + destruct Hc as [->|Hc]; [now rewrite Ascii.eqb_refl in He|].
      destruct (split_comma r) as [|h t]; [repeat constructor; assumption|].
      inversion IH as [|y l' Hh Ht]; subst.
      constructor; [|exact Ht]. constructor; assumption.
Qed.

Lemma filter_none :
  forall A (p : A -> bool) l,
    Forall (fun x => p x = false) l -> filter p l = [].
Proof.
  intros A p l H. induction H as [|x l Hx _ IH]; [reflexivity|].
  cbn [filter]. now rewrite Hx.
Qed.

(** X24. When [ALLOW_ORIGINS] is unset or blank the settings fall back on
    the origin regex (the given one, or the localhost default).  When it
    holds a comma and otherwise only commas and blanks, they do not fall
    back: the list of allowed origins is empty. *)
Theorem cors_fallback :
  forall (allow_origin_regex : option string),
    (forall v, all_blank v ->
       cors_settings (Some v) allow_origin_regex
       = cors_settings None allow_origin_regex)
    /\ cors_settings None None = AllowOriginRegex DEFAULT_ORIGIN_REGEX
    /\ (forall rx, cors_settings None (Some rx) = AllowOriginRegex rx)
    /\ (forall v, only_separators v -> In comma (list_ascii_of_string v) ->
          cors_settings (Some v) allow_origin_regex = AllowOrigins []).
Proof.
  intros allow_origin_regex. split; [|split; [|split]].
  - intros v Hv. unfold cors_settings. now rewrite (strip_blank v Hv).
  - reflexivity.
  - reflexivity.
  - intros v Hsep Hin. unfold cors_settings.
    assert (Hne : strip v <> "").
    { intros Hs. apply strip_empty_blank in Hs.
      unfold all_blank in Hs. rewrite Forall_forall in Hs.
      specialize (Hs comma Hin). discriminate Hs. }
    apply String.eqb_neq in Hne. rewrite Hne. cbn [negb]. f_equal.
    assert (Hsep' : only_separators (strip v)).
    { unfold only_separators in *. rewrite Forall_forall in *.
      intros c Hc. apply Hsep. now apply strip_chars. }
    rewrite filter_none; [reflexivity|].
    pose proof (only_separators_pieces _ Hsep') as Hp.
    rewrite Forall_forall in *. intros p Hpin.
    rewrite (strip_blank p (Hp p Hpin)). reflexivity.
Qed.

End Cors.

(** ** The further properties on concrete runs *)

Lemma chat_returns_reply_text_witness :
  chat (fun _ => Ok (text_reply "  hi ")) (mkGemini true)
       [mkMessage "user" "hello"] (1 # 2) 512 = Ok "  hi ".
Proof.
  apply (chat_returns_reply_text (fun _ => Ok (text_reply "  hi "))
           (mkGemini true) [mkMessage "user" "hello"] (1 # 2) 512
           (text_reply "  hi ") "  hi "); try reflexivity.
  vm_compute. discriminate.
Defined.

Lemma chat_joins_parts_witness :
  chat (fun _ => Ok (parts_reply ["Hello, "; "world "])) (mkGemini true)
       [mkMessage "user" "hello"] (1 # 2) 512 = Ok "Hello, world".
Proof.
  apply (chat_joins_parts (fun _ => Ok (parts_reply ["Hello, "; "world "]))
           (mkGemini true) [mkMessage "user" "hello"] (1 # 2) 512
           ["Hello, "; "world "]); reflexivity.
Defined.

Lemma count_tokens_reported_total_witness :
  count_tokens true demo_count demo_int (mkGemini true) "abc" = 3.
Proof.
  apply (count_tokens_reported_total true demo_count demo_int (mkGemini true)
           "abc" "total_tokens" 3); try reflexivity.
  - left. reflexivity.
  - discriminate.
Defined.

Lemma count_tokens_zero_is_unavailable_witness :
  count_tokens true zero_counter demo_int (mkGemini true) "" = -1.
Proof.
  apply (count_tokens_zero_is_unavailable true zero_counter demo_int
           (mkGemini true) "").
  left. reflexivity.
Defined.

Lemma unconfigured_service_witness :
  chat (demo_generate "{}") (_init_client true None (Ok tt))
       [mkMessage "user" "hello"] (1 # 2) 512 = Ok NOT_CONFIGURED_MSG
  /\ count_tokens true demo_count demo_int (_init_client true None (Ok tt))
       "hello" = -1.
Proof.
  apply (unconfigured_service true (demo_generate "{}") demo_count demo_int
           true None (Ok tt) [mkMessage "user" "hello"] (1 # 2) 512 "hello").
  right. left. reflexivity.
Defined.

Lemma unknown_intent_is_general_witness :
  fst (executor no_key_env (mkChatRequest "Analyze TSLA")
         (PDict [("intent", PStr "Stock_Analysis")]) st0)
  = Ok (mkChatResponse "Digest: Analyze TSLA" "gemini").
Proof.
  unfold st0.
  rewrite (unknown_intent_is_general no_key_env (mkChatRequest "Analyze TSLA")
             [("intent", PStr "Stock_Analysis")] (mkGlobals PNone "" 0) []);
    reflexivity.
Defined.

Lemma non_object_plan_fails_witness :
  fst (process_request list_plan_env (mkChatRequest "Hi there") st0)
  = Raise AttributeError.
Proof.
  apply (proj1 (non_object_plan_fails list_plan_env (mkChatRequest "Hi there")
                  (mkGlobals PNone "" 0) [] (PList []) eq_refl eq_refl)).
Defined.

Lemma fenced_plan_decodes_witness :
  decode_plan no_key_env (PStr FENCED_NEWS_PLAN) = Ok news_plan.
Proof.
  rewrite (fenced_plan_decodes no_key_env FENCED_NEWS_PLAN
             (nl ++ NEWS_PLAN_TEXT ++ nl)); reflexivity.
Defined.

Lemma news_data_keeps_feed_witness :
  get_market_news_data news_env
  = Ok (PList [feed_item "a"; feed_item "b"]).
Proof.
  apply (news_data_keeps_feed news_env
           (mkHttpResponse 200
              (Ok (PDict [("feed", PList [feed_item "a"; feed_item "b"])])))
           [("feed", PList [feed_item "a"; feed_item "b"])]
           [feed_item "a"; feed_item "b"]); reflexivity.
Defined.

Lemma no_news_is_apologised_witness :
  fst (executor offline_env (mkChatRequest "news") news_plan st0)
  = Ok (mkChatResponse NO_NEWS_MSG "gemini").
Proof.
  unfold st0.
  rewrite (no_news_is_apologised offline_env (mkChatRequest "news")
             (mkGlobals PNone "" 0) [] eq_refl); [reflexivity|].
  left. reflexivity.
Defined.

Lemma news_errors_propagate_witness :
  get_market_news_data garbled_env = Raise JSONDecodeError.
Proof.
  apply (proj1 (news_errors_propagate garbled_env JSONDecodeError
                  eq_refl eq_refl
                  (or_intror
                     (ex_intro _ (mkHttpResponse 200 (Raise JSONDecodeError))
                        (conj eq_refl (conj eq_refl eq_refl)))))).
Defined.

Lemma stock_news_is_capped_witness :
  exists d,
    get_stock_analysis_data feed_env (PStr "TSLA") = Ok (PDict d)
    /\ dict_lookup "news" d
       = Some (PList (map stock_news_projection (firstn 3 four_item_feed))).
Proof.
  destruct (stock_news_is_capped feed_env (PStr "TSLA")
              (mkHttpResponse 200 (Ok notice_body))
              (mkHttpResponse 200 (Ok notice_body))
              (mkHttpResponse 200 (Ok (PDict [("feed", PList four_item_feed)])))
              [("feed", PList four_item_feed)] four_item_feed
              eq_refl eq_refl eq_refl eq_refl eq_refl eq_refl eq_refl eq_refl
              eq_refl eq_refl) as (d & H1 & H2 & _).
  exists d. split; assumption.
Defined.

Lemma undecodable_body_aborts_witness :
  get_stock_analysis_data garbled_env (PStr "TSLA") = Ok PNone.
Proof.
  apply (undecodable_body_aborts garbled_env (PStr "TSLA")
           (mkHttpResponse 200 (Raise JSONDecodeError))
           (mkHttpResponse 200 (Raise JSONDecodeError))
           (mkHttpResponse 200 (Raise JSONDecodeError))
           eq_refl eq_refl eq_refl eq_refl).
  left. split; [reflexivity|]. exists JSONDecodeError. reflexivity.
Defined.

Lemma news_digest_is_resynthesised_witness :
  exists k : nat,
    (k <= 2)%nat
    /\ fst (executor news_env (mkChatRequest "news") news_plan st0)
       = Ok (mkChatResponse
               (reply news_env
                  (news_final_messages (mkChatRequest "news")
                     (join nl (map (summary news_env)
                                   (firstn k [feed_item "a"; feed_item "b"]))))
                  (1 # 2) (2 * MAX_TOKENS))
               "gemini").
Proof.
  destruct (news_digest_is_resynthesised news_env (mkChatRequest "news")
              (mkGlobals PNone "" 0) [] [feed_item "a"; feed_item "b"]
              eq_refl) as (k & Hk & Hr & _).
  - discriminate.
  - exists k. split; [exact Hk | exact Hr].
Defined.

Lemma first_item_over_budget_witness :
  fst (executor heavy_env (mkChatRequest "news") news_plan st0)
  = Ok (mkChatResponse
          (reply heavy_env (news_final_messages (mkChatRequest "news") "")
                 (1 # 2) (2 * MAX_TOKENS))
          "gemini").
Proof.
  apply (proj1 (first_item_over_budget heavy_env (mkChatRequest "news")
                  (mkGlobals PNone "" 0) [] (feed_item "a") [feed_item "b"]
                  eq_refl eq_refl)).
Defined.

Lemma endpoint_fails_on_non_object_plan_witness :
  fst (chat_endpoint list_plan_env None demo_exn_str
         (mkChatRequest "Hi there") st0)
  = HTTPException 500 "'list' object has no attribute 'get'".
Proof.
  apply (endpoint_fails_on_non_object_plan list_plan_env demo_exn_str None
           (mkChatRequest "Hi there") (mkGlobals PNone "" 0) [] (PList [])
           (or_introl eq_refl) eq_refl eq_refl).
Defined.

Lemma endpoint_echoes_on_other_backend_witness :
  chat_endpoint no_key_env (Some "Gemini") demo_exn_str
    (mkChatRequest "Hi there") st0
  = (Returned (mkChatResponse "Echo: Hi there" "mistral"), st0).
Proof.
  apply (endpoint_echoes_on_other_backend no_key_env demo_exn_str "Gemini"
           (mkChatRequest "Hi there") st0).
  discriminate.
Defined.

Lemma av_get_requires_env_key_witness :
  quote (demo_av_env None) (av_init (demo_av_env None) (Some "my-key"))
        (PStr "IBM")
  = Raise (OtherError "RuntimeError").
Proof.
  apply (av_get_requires_env_key (demo_av_env None) (Some "my-key")).
  left. reflexivity.
Defined.

Lemma av_get_passes_through_witness :
  overview (demo_av_env (Some "k")) (av_init (demo_av_env (Some "k")) None)
           (PStr "IBM")
  = Ok notice_body.
Proof.
  unfold overview.
  rewrite (av_get_passes_through (demo_av_env (Some "k")) None "k");
    [reflexivity | reflexivity | discriminate].
Defined.


Lemma cors_fallback_witness :
  cors_settings (Some " , ,") None = AllowOrigins [].
Proof.
  apply (proj2 (proj2 (proj2 (cors_fallback None)))).
  - unfold only_separators. cbn [list_ascii_of_string].
    repeat (apply Forall_cons;
            [first [left; reflexivity | right; reflexivity]|]).
    apply Forall_nil.
  - right. left. reflexivity.
Defined.

(** ** Failed stock lookups, seen from the orchestrator *)

Section StockFailures.

Variable E : env.

Lemma stock_data_none_on_raise :
  forall ticker,
    ((exists e, http_get E (quote_url E ticker) = Raise e)
     \/ (exists e, http_get E (overview_url E ticker) = Raise e)
     \/ (exists e, http_get E (stock_news_url E ticker) = Raise e)) ->
    get_stock_analysis_data E ticker = Ok PNone.
Proof.
  intros ticker H. unfold get_stock_analysis_data.
  destruct (key_missing E); [reflexivity|].
  destruct H as [[e H]|[[e H]|[e H]]]; rewrite H.
  - reflexivity.
  - destruct (http_get E (quote_url E ticker)); reflexivity.
  - destruct (http_get E (quote_url E ticker));
      destruct (http_get E (overview_url E ticker)); reflexivity.
Qed.

Lemma ticker_plan_no_data :
  forall req ticker g tr v,
    get_stock_analysis_data E ticker = Ok v -> truthy v = false ->
    executor E req (ticker_plan ticker) (mkState g tr)
    = (Ok (mkChatResponse (no_stock_data_msg (py_str E ticker)) "gemini"),
       mkState g (tr ++ [CallStockData ticker])).
Proof.
  intros req ticker g tr v Hv Ht. unfold ticker_plan.
  rewrite executor_stock by reflexivity.
  rewrite (stock_branch_ticker_run E _
             [("type", PStr "ticker"); ("value", ticker)] []) by reflexivity.
  cbv zeta.
  change (dict_get "value" [("type", PStr "ticker"); ("value", ticker)] PNone)
    with ticker.
  rewrite Hv, Ht. reflexivity.
Qed.

(** X25. On a stock_analysis plan with a ticker, when any one of the three
    fetches raises, the user is told that the financial data for that
    ticker could not be retrieved: the aggregator is called once and no
    completion call follows. *)
Theorem fetch_failure_is_apologised :
  forall (req : ChatRequest) (ticker : pyval) (g : globals) (tr : list event),
    ((exists e, http_get E (quote_url E ticker) = Raise e)
     \/ (exists e, http_get E (overview_url E ticker) = Raise e)
     \/ (exists e, http_get E (stock_news_url E ticker) = Raise e)) ->
    executor E req (ticker_plan ticker) (mkState g tr)
    = (Ok (mkChatResponse (no_stock_data_msg (py_str E ticker)) "gemini"),
       mkState g (tr ++ [CallStockData ticker])).
Proof.
  intros req ticker g tr H.
  apply (ticker_plan_no_data req ticker g tr PNone); [|reflexivity].
  now apply stock_data_none_on_raise.
Qed.

(** X26. When the provider answers the three lookups with a status other
    than 200, no body is read, the aggregator returns an empty dict, and
    the user gets the same "couldn't retrieve" text, with no completion
    call. *)
Theorem error_statuses_give_no_data :
  forall (req : ChatRequest) (ticker : pyval) (g : globals) (tr : list event)
         (q o n : http_response),
    key_missing E = false ->
    http_get E (quote_url E ticker) = Ok q ->
    http_get E (overview_url E ticker) = Ok o ->
    http_get E (stock_news_url E ticker) = Ok n ->
    status_code q <> 200 -> status_code o <> 200 -> status_code n <> 200 ->
    get_stock_analysis_data E ticker = Ok (PDict [])
    /\ executor E req (ticker_plan ticker) (mkState g tr)
       = (Ok (mkChatResponse (no_stock_data_msg (py_str E ticker)) "gemini"),
          mkState g (tr ++ [CallStockData ticker])).
Proof.
  intros req ticker g tr q o n Hk Gq Go Gn Sq So Sn.
  assert (Hd : get_stock_analysis_data E ticker = Ok (PDict [])).
  { unfold get_stock_analysis_data. rewrite Hk, Gq, Go, Gn.
    unfold consolidate, add_quote, add_overview, add_news.
    apply Z.eqb_neq in Sq, So, Sn. rewrite Sq, So, Sn. reflexivity. }
  split; [exact Hd|].
  apply (ticker_plan_no_data req ticker g tr (PDict [])); [exact Hd|reflexivity].
Qed.

(** X27. Whatever happens next, a request begins with the planner's
    completion call, made at temperature 0 with a ceiling of 1000 tokens;
    everything else the request calls comes after it. *)
Theorem planner_is_called_first :
  forall (req : ChatRequest) (g : globals) (tr : list event),
    exists ev,
      trace (snd (process_request E req (mkState g tr)))
      = (tr ++ CallChat (planner_messages req) 0 1000 :: ev)%list.
Proof.
  intros req g tr.
  set (out := reply E (planner_messages req) 0 1000).
  assert (Hsame :
    process_request E req (mkState g tr)
    = bind (planning E (ret (PStr out))) (fun plan => executor E req plan)
           (mkState fresh_globals
                    (tr ++ [CallChat (planner_messages req) 0 1000]))).
  { unfold process_request, pipeline. unfold bind at 1.
    rewrite reset_globals_spec.
    unfold planning, planner_call, call_chat, try_when, bind, emit, lift, ret.
    cbn [glob trace]. rewrite gemini_chat_reply. reflexivity. }
  assert (F : framed (bind (planning E (ret (PStr out)))
                           (fun plan => executor E req plan))).
  { apply framed_bind.
    - apply framed_planning, framed_ret.
    - intros plan. apply framed_executor. }
  destruct (F fresh_globals) as (r & g' & ev & Hrun).
  exists ev. rewrite Hsame, Hrun. cbn [snd trace].
  rewrite <- app_assoc. reflexivity.
Qed.

End StockFailures.

Lemma fetch_failure_is_apologised_witness :
  fst (executor overview_down_env (mkChatRequest "Analyze TSLA")
         (ticker_plan (PStr "TSLA")) st0)
  = Ok (mkChatResponse "Sorry, I couldn't retrieve financial data for TSLA."
                       "gemini").
Proof.
  unfold st0.
  rewrite (fetch_failure_is_apologised overview_down_env
             (mkChatRequest "Analyze TSLA") (PStr "TSLA")
             (mkGlobals PNone "" 0) []); [reflexivity|].
  right. left. exists RequestError. reflexivity.
Defined.

Lemma error_statuses_give_no_data_witness :
  get_stock_analysis_data down_env (PStr "TSLA") = Ok (PDict []).
Proof.
  destruct (error_statuses_give_no_data down_env
              (mkChatRequest "Analyze TSLA") (PStr "TSLA")
              (mkGlobals PNone "" 0) []
              (mkHttpResponse 503 (Raise JSONDecodeError))
              (mkHttpResponse 503 (Raise JSONDecodeError))
              (mkHttpResponse 503 (Raise JSONDecodeError))
              eq_refl eq_refl eq_refl eq_refl) as [H _];
    try discriminate.
  exact H.
Defined.
